(** * KickIt backend: authentication gate, account routes and kick routes

    A shallow embedding of
    - [src/middleware/verifyToken.js] (the authentication gate),
    - [src/controllers/AuthController.js] (sign-up and sign-in),
    - [src/controllers/KickController.js] (kick and comment routes),
    - [src/models/Kick.js] (the kick schema and its validators).

    Handlers run in a small state and exception monad over a [world] that
    holds the kick collection, the account collection, an ObjectId supply
    and a log of the store operations performed, so that "before any store
    access" can be stated.  JSON request values are modelled by [jsval]
    (composite values, arrays and objects, are outside the model); a
    string holds the UTF-8 encoding of the JavaScript string. *)

From stdpp Require Import base gmap strings list.
From Stdlib Require Import Ascii String ZArith DecimalString Sorted.
Import ListNotations.

Open Scope string_scope.

(* ------------------------------------------------------------------ *)
(** ** JavaScript values and the helpers the handlers use *)

(** A JSON scalar as it arrives in [req.body]; [JUndefined] is an absent key. *)
Inductive jsval :=
| JUndefined
| JNull
| JBool (b : bool)
| JNum (z : Z)
| JStr (s : string).

(** JavaScript truthiness ([!x] is [negb (truthy x)]). *)
Definition truthy (v : jsval) : bool :=
  match v with
  | JUndefined | JNull => false
  | JBool b => b
  | JNum z => negb (Z.eqb z 0)
  | JStr s => negb (String.eqb s "")
  end.

Definition is_undefined (v : jsval) : bool :=
  match v with JUndefined => true | _ => false end.

(** [String(v)] for a number: the decimal rendering of an integer. *)
Definition number_to_string (z : Z) : string :=
  NilZero.string_of_int (Z.to_int z).

(** Mongoose's cast of a scalar to a [String] path: [None] is null/undefined. *)
Definition cast_string (v : jsval) : option string :=
  match v with
  | JUndefined | JNull => None
  | JBool b => Some (if b then "true" else "false")
  | JNum z => Some (number_to_string z)
  | JStr s => Some s
  end.

Definition is_hex_char (c : ascii) : bool :=
  let n := nat_of_ascii c in
  (Nat.leb 48 n && Nat.leb n 57) || (Nat.leb 97 n && Nat.leb n 102)
  || (Nat.leb 65 n && Nat.leb n 70).

(** [s.match(/^[0-9a-fA-F]{24}$/)] *)
Definition is_hex24 (s : string) : bool :=
  Nat.eqb (String.length s) 24 && forallb is_hex_char (list_ascii_of_string s).

Definition lower_char (c : ascii) : ascii :=
  let n := nat_of_ascii c in
  if Nat.leb 65 n && Nat.leb n 90 then ascii_of_nat (n + 32) else c.

Fixpoint lower_ascii (s : string) : string :=
  match s with
  | EmptyString => EmptyString
  | String c s' => String (lower_char c) (lower_ascii s')
  end.

(** Casting a string to an ObjectId (bson): a 24-character hex string,
    normalised to lower case; anything else fails to cast. *)
Definition cast_oid (s : string) : option string :=
  if is_hex24 s then Some (lower_ascii s) else None.

(** [objectId.equals(str)] for a string argument. *)
Definition oid_equals (oid : string) (s : string) : bool :=
  match cast_oid s with
  | Some x => String.eqb x oid
  | None => false
  end.

(** The length in bytes of the white-space code point at the front of
    [s], 0 if there is none.  A string holds the UTF-8 encoding of the
    JavaScript string; [String.prototype.trim] removes WhiteSpace and
    LineTerminator code points: U+0009 to U+000D, U+0020, U+00A0, U+1680,
    U+2000 to U+200A, U+2028, U+2029, U+202F, U+205F, U+3000 and U+FEFF. *)
Definition ws_len (s : string) : nat :=
  match s with
  | EmptyString => 0
  | String a s1 =>
      let x := nat_of_ascii a in
      if Nat.eqb x 32 || (Nat.leb 9 x && Nat.leb x 13) then 1 else
      match s1 with
      | EmptyString => 0
      | String b s2 =>
          let y := nat_of_ascii b in
          if Nat.eqb x 194 && Nat.eqb y 160 then 2 else
          match s2 with
          | EmptyString => 0
          | String c _ =>
              let z := nat_of_ascii c in
              if (Nat.eqb x 225 && Nat.eqb y 154 && Nat.eqb z 128)
                 || (Nat.eqb x 226 && Nat.eqb y 128
                     && ((Nat.leb 128 z && Nat.leb z 138) || Nat.eqb z 168
                         || Nat.eqb z 169 || Nat.eqb z 175))
                 || (Nat.eqb x 226 && Nat.eqb y 129 && Nat.eqb z 159)
                 || (Nat.eqb x 227 && Nat.eqb y 128 && Nat.eqb z 128)
                 || (Nat.eqb x 239 && Nat.eqb y 187 && Nat.eqb z 191)
              then 3 else 0
          end
      end
  end.

(** Leading white space removed; each step drops at least one byte, so the
    length of [s] is enough fuel. *)
Fixpoint trim_start_fuel (fuel : nat) (s : string) : string :=
  match fuel with
  | O => s
  | S f =>
      match ws_len s with
      | O => s
      | S _ => trim_start_fuel f (substring (ws_len s) (String.length s - ws_len s) s)
      end
  end.

Definition trim_start (s : string) : string := trim_start_fuel (String.length s) s.

(** Trailing white space removed: the string is cut at the first position
    from which only white space follows.  No white-space code point starts
    with a UTF-8 continuation byte, so only code-point boundaries match. *)
Fixpoint trim_end (s : string) : string :=
  match s with
  | EmptyString => EmptyString
  | String c s' => if String.eqb (trim_start s) "" then EmptyString else String c (trim_end s')
  end.

(** [s.trim()] *)
Definition trim (s : string) : string := trim_end (trim_start s).

(** [s.split(" ")] *)
Fixpoint split_sp_aux (s : string) (cur : string) : list string :=
  match s with
  | EmptyString => [cur]
  | String c s' =>
      if Ascii.eqb c " "%char then cur :: split_sp_aux s' ""
      else split_sp_aux s' (cur ++ String c "")
  end.

Definition split_sp (s : string) : list string := split_sp_aux s "".

(** Fresh ObjectIds: the n-th id is n written as 24 lower-case hex digits.
    (Real ObjectIds mix a timestamp, a random value and a counter; only
    their uniqueness and their shape matter here.) *)
Definition hex_digit (n : N) : ascii :=
  if N.ltb n 10 then ascii_of_N (48 + n) else ascii_of_N (87 + n).

Fixpoint hex_pad (k : nat) (n : N) : string :=
  match k with
  | O => EmptyString
  | S k' => hex_pad k' (n / 16)%N ++ String (hex_digit (n mod 16)%N) EmptyString
  end.

Definition oid_of (n : N) : string := hex_pad 24 n.

(* ------------------------------------------------------------------ *)
(** ** Documents, responses and the world *)

(** An embedded comment ([commentSchema]); timestamps are not modelled. *)
Record comment := mkComment {
  c_id : string;
  c_text : string;
  c_author : string
}.

(** A stored kick ([kickSchema] of [src/models/Kick.js]).  Paths holding
    an ObjectId ([k_id], [author]) hold its lower-case hex rendering;
    [createdAt] is the creation sequence number. *)
Record kick := mkKick {
  k_id : string;
  title : string;
  description : string;
  location : option string;
  category : string;
  status : string;
  completionDate : option Z;
  targetDate : option Z;
  author : string;
  comments : list comment;
  createdAt : N
}.

(** Modelled from the spec: [src/models/User.js] is not part of the
    sources; an account has a unique handle ([username]) and a unique
    email, a display name and a password hash. *)
Record user := mkUser {
  u_id : string;
  username : string;
  name : string;
  email : string;
  hashedPassword : string
}.

(** The identity claim carried by a token: [{ username, _id }]. *)
Record identity := mkIdentity {
  id_username : string;
  id_id : string
}.

(** The JSON body of a response.  Kick routes answer errors as
    [{ error: ... }], the gate and the account routes as [{ err: ... }]. *)
Inductive body :=
| BError (msg : string)
| BErr (msg : string)
| BMessage (msg : string)
| BKick (k : kick)
| BKicks (ks : list kick)
| BNull
| BComment (c : comment)
| BNewComment (text author : string)
| BToken (token : string) (id uname nm mail : string).

Record response := mkResponse { code : Z; rbody : body }.

(** Store operations, logged in the order the handlers issue them. *)
Inductive store_op :=
| OpFindKick (id : string)
| OpFindKicksBy (author : string)
| OpCreateKick (id : string)
| OpUpdateKick (id : string)
| OpDeleteKick (id : string)
| OpSaveKick (id : string)
| OpFindUser (uname : option string)
| OpCreateUser (id : string).

Record world := mkWorld {
  kicks : gmap string kick;
  users : list user;
  next_oid : N;
  log : list store_op
}.

(** Exceptions a handler may see in its [catch] block, by [error.name]
    (and [code] for the driver's duplicate-key error). *)
Inductive exn :=
| ValidationError (msgs : list string)
| CastError (msg : string)
| TypeError (msg : string)
| DuplicateKey (field : string)
| HashError (msg : string).

(* ------------------------------------------------------------------ *)
(** ** The handler monad: state over [world] and exceptions *)

Definition M (A : Type) : Type := world -> (A + exn) * world.

Definition ret {A} (a : A) : M A := fun w => (inl a, w).

Definition bind {A B} (m : M A) (f : A -> M B) : M B :=
  fun w => match m w with
           | (inl a, w') => f a w'
           | (inr e, w') => (inr e, w')
           end.

Definition throw {A} (e : exn) : M A := fun w => (inr e, w).

(** [try { m } catch (e) { h(e) }] *)
Definition try_catch {A} (m : M A) (h : exn -> M A) : M A :=
  fun w => match m w with
           | (inl a, w') => (inl a, w')
           | (inr e, w') => h e w'
           end.

Definition get_world : M world := fun w => (inl w, w).
Definition put_world (w : world) : M unit := fun _ => (inl tt, w).

Notation "'let*' x ':=' m 'in' k" := (bind m (fun x => k))
  (at level 200, x name, m at level 100, k at level 200).

(** [res.status(c).json(b)] ends the handler. *)
Definition reply (c : Z) (b : body) : M response := ret (mkResponse c b).

Definition log_op (op : store_op) : M unit :=
  fun w => (inl tt, mkWorld (kicks w) (users w) (next_oid w) (app (log w) [op])).

Definition fresh_oid : M string :=
  fun w => (inl (oid_of (next_oid w)),
            mkWorld (kicks w) (users w) (N.succ (next_oid w)) (log w)).

Definition set_kicks (ks : gmap string kick) : M unit :=
  fun w => (inl tt, mkWorld ks (users w) (next_oid w) (log w)).

Definition set_users (us : list user) : M unit :=
  fun w => (inl tt, mkWorld (kicks w) us (next_oid w) (log w)).

(** The response and final world of a run. *)
Definition run {A} (m : M A) (w : world) : (A + exn) * world := m w.

(* ------------------------------------------------------------------ *)
(** ** The authentication gate ([src/middleware/verifyToken.js]) *)

(** Errors [jwt.verify] throws, by [err.name]. *)
Inductive jwt_error :=
| JsonWebTokenError
| TokenExpiredError
| NotBeforeError.

Inductive gate_result :=
| Admit (u : identity)
| Reject (r : response).

Section Gate.
(** [jwt.verify(token, process.env.JWT_SECRET).payload] *)
Variable jwt_verify : string -> identity + jwt_error.

Definition gate_reject (msg : string) : gate_result :=
  Reject (mkResponse 401 (BErr msg)).

(** [authorization] is [req.headers.authorization] ([None] when absent). *)
Definition verifyToken (authorization : option string) : gate_result :=
  match authorization with
  | None => gate_reject "No authentication token provided. Please sign in."
  | Some h =>
      if String.eqb h "" then
        gate_reject "No authentication token provided. Please sign in."
      else
        let token := nth_error (split_sp h) 1 in
        match token with
        | None | Some "" =>
            gate_reject "Invalid authentication format. Please sign in again."
        | Some t =>
            match jwt_verify t with
            | inl payload => Admit payload
            | inr JsonWebTokenError =>
                gate_reject "Invalid authentication token. Please sign in again."
            | inr TokenExpiredError =>
                gate_reject "Your session has expired. Please sign in again."
            | inr _ =>
                gate_reject "Authentication failed. Please sign in again."
            end
        end
  end.
End Gate.

(* ------------------------------------------------------------------ *)
(** ** The kick schema and its validators ([src/models/Kick.js]) *)

Definition category_enum : list string :=
  ["Travel"; "Hobbies"; "Sports"; "Skills"; "Experiences"; "Other"].

Definition status_enum : list string := ["Open"; "In Progress"; "Completed"].

Definition required_msg (path : string) : string :=
  "Path `" ++ path ++ "` is required.".

Definition enum_msg (v path : string) : string :=
  "`" ++ v ++ "` is not a valid enum value for path `" ++ path ++ "`.".

Definition in_enum (vals : list string) (s : string) : bool :=
  existsb (String.eqb s) vals.

(** The first failing validator of a [String] path ([None]: null or
    undefined); [required] runs before [enum], undefined passes [enum]. *)
Definition path_error (path : string) (required : bool)
    (vals : option (list string)) (v : option string) : option string :=
  match v with
  | None => if required then Some (required_msg path) else None
  | Some s =>
      if required && String.eqb s "" then Some (required_msg path)
      else match vals with
           | Some vs => if in_enum vs s then None else Some (enum_msg s path)
           | None => None
           end
  end.

Definition title_error := path_error "title" true None.
Definition description_error := path_error "description" true None.
Definition category_error := path_error "category" true (Some category_enum).
Definition status_error := path_error "status" true (Some status_enum).

Fixpoint somes (l : list (option string)) : list string :=
  match l with
  | [] => []
  | Some m :: l' => m :: somes l'
  | None :: l' => somes l'
  end.

(** Validation of a whole document, as [doc.save()] runs it. *)
Definition validate_kick (k : kick) : list string :=
  somes ([title_error (Some (title k)); description_error (Some (description k));
          category_error (Some (category k)); status_error (Some (status k))]
         ++ map (fun c => path_error "text" true None (Some (c_text c))) (comments k)).

(** The result of casting a value to a [Date] path. *)
Inductive date_cast :=
| DateOk (d : option Z)
| DateFail.

(** The object handed to [Kick.create]: absent keys are [JUndefined]. *)
Record kick_data := mkKickData {
  kd_title : jsval;
  kd_description : jsval;
  kd_category : jsval;
  kd_location : jsval;
  kd_targetDate : jsval;
  kd_status : jsval;
  kd_author : string
}.

(** The [$set] object handed to [Kick.findByIdAndUpdate]. *)
Record kick_update := mkKickUpdate {
  ku_title : jsval;
  ku_description : jsval;
  ku_category : jsval;
  ku_location : jsval;
  ku_targetDate : jsval;
  ku_status : jsval
}.

Definition set_status (k : kick) (s : string) : kick :=
  mkKick (k_id k) (title k) (description k) (location k) (category k) s
    (completionDate k) (targetDate k) (author k) (comments k) (createdAt k).

Definition set_comments (k : kick) (cs : list comment) : kick :=
  mkKick (k_id k) (title k) (description k) (location k) (category k) (status k)
    (completionDate k) (targetDate k) (author k) cs (createdAt k).

Fixpoint insert_by_created (k : kick) (l : list kick) : list kick :=
  match l with
  | [] => [k]
  | k' :: l' => if (createdAt k' <=? createdAt k)%N then k :: l
                else k' :: insert_by_created k l'
  end.

(** [.sort({ createdAt: "desc" })] *)
Definition sort_created_desc (l : list kick) : list kick :=
  fold_right insert_by_created [] l.

Section Store.
(** The time value [castDate] builds from a non-empty string:
    [new Date(Number(s))] for a numeric string of at least 275761 or below
    -271820, [new Date(s)] otherwise; [None] when the string is not a date. *)
Variable parse_date : string -> option Z.

(** A time value a [Date] can hold: at most 8.64e15 ms from the epoch
    (TimeClip); beyond it [new Date(n)] is an Invalid Date. *)
Definition time_ok (z : Z) : bool := (Z.abs z <=? 8640000000000000)%Z.

(** Mongoose's cast to a [Date] path ([castDate]): booleans are refused,
    and so is a value whose [Date] is invalid. *)
Definition cast_date (v : jsval) : date_cast :=
  match v with
  | JUndefined | JNull => DateOk None
  | JBool _ => DateFail
  | JNum z => if time_ok z then DateOk (Some z) else DateFail
  | JStr "" => DateOk None
  | JStr s => match parse_date s with
              | Some d => if time_ok d then DateOk (Some d) else DateFail
              | None => DateFail
              end
  end.

Definition date_error (d : date_cast) : option string :=
  match d with
  | DateOk _ => None
  | DateFail => Some "Cast to date failed for path `targetDate`"
  end.

Definition author_error (a : option string) : option string :=
  match a with
  | Some _ => None
  | None => Some "Cast to ObjectId failed for path `author`"
  end.

(** [Kick.create(data)]: the document gets its [_id] when it is built,
    casts its paths, applies the [status] default, then validates. *)
Definition Kick_create (kd : kick_data) : M kick :=
  let* id := fresh_oid in
  let t := cast_string (kd_title kd) in
  let d := cast_string (kd_description kd) in
  let c := cast_string (kd_category kd) in
  let l := cast_string (kd_location kd) in
  let s := if is_undefined (kd_status kd) then Some "Open"
           else cast_string (kd_status kd) in
  let td := cast_date (kd_targetDate kd) in
  let a := cast_oid (kd_author kd) in
  let errs := somes [title_error t; description_error d; category_error c;
                     status_error s; date_error td; author_error a] in
  match errs, t, d, c, s, td, a with
  | [], Some t', Some d', Some c', Some s', DateOk td', Some a' =>
      let* w := get_world in
      let k := mkKick id t' d' l c' s' None td' a' [] (next_oid w) in
      let* _ := log_op (OpCreateKick id) in
      let* _ := set_kicks (<[id := k]> (kicks w)) in
      ret k
  | _, _, _, _, _, _, _ => throw (ValidationError errs)
  end.

(** [Kick.findById(id)] *)
Definition Kick_findById (id : string) : M (option kick) :=
  match cast_oid id with
  | None => throw (CastError "Cast to ObjectId failed for value at path `_id`")
  | Some oid =>
      let* _ := log_op (OpFindKick oid) in
      let* w := get_world in
      ret (kicks w !! oid)
  end.

(** [Kick.find({ author }).sort({ createdAt: "desc" })] *)
Definition Kick_find_by_author (a : string) : M (list kick) :=
  match cast_oid a with
  | None => throw (CastError "Cast to ObjectId failed for value at path `author`")
  | Some oid =>
      let* _ := log_op (OpFindKicksBy oid) in
      let* w := get_world in
      ret (sort_created_desc (filter (fun k => String.eqb (author k) oid)
                                (map snd (map_to_list (kicks w)))))
  end.

(** [Kick.findByIdAndDelete(id)] *)
Definition Kick_findByIdAndDelete (id : string) : M unit :=
  match cast_oid id with
  | None => throw (CastError "Cast to ObjectId failed for value at path `_id`")
  | Some oid =>
      let* _ := log_op (OpDeleteKick oid) in
      let* w := get_world in
      set_kicks (delete oid (kicks w))
  end.

(** [doc.save()]: validate the document, then write it. *)
Definition Kick_save (k : kick) : M kick :=
  match validate_kick k with
  | [] =>
      let* _ := log_op (OpSaveKick (k_id k)) in
      let* w := get_world in
      let* _ := set_kicks (<[k_id k := k]> (kicks w)) in
      ret k
  | errs => throw (ValidationError errs)
  end.

(** A [String] path of a [$set]: absent keys keep the old value.  A
    null or empty value of a required path never reaches the write,
    the update validators refuse it. *)
Definition upd_str (old : string) (v : jsval) : string :=
  if is_undefined v then old else default "" (cast_string v).

Definition upd_opt_str (old : option string) (v : jsval) : option string :=
  if is_undefined v then old else cast_string v.

Definition present_error (f : option string -> option string) (v : jsval)
    : option string :=
  if is_undefined v then None else f (cast_string v).

(** [Kick.findByIdAndUpdate(id, upd, { new: true, runValidators: true })]:
    the update is cast first (a cast failure is a [CastError]), then the
    validators of the paths it sets run, then the document is written. *)
Definition Kick_findByIdAndUpdate (id : string) (u : kick_update)
    : M (option kick) :=
  match cast_oid id with
  | None => throw (CastError "Cast to ObjectId failed for value at path `_id`")
  | Some oid =>
      let td := if is_undefined (ku_targetDate u) then DateOk None
                else cast_date (ku_targetDate u) in
      match td with
      | DateFail => throw (CastError "Cast to date failed for path `targetDate`")
      | DateOk td' =>
          let errs := somes [present_error title_error (ku_title u);
                             present_error description_error (ku_description u);
                             present_error category_error (ku_category u);
                             present_error status_error (ku_status u)] in
          match errs with
          | _ :: _ => throw (ValidationError errs)
          | [] =>
              let* _ := log_op (OpUpdateKick oid) in
              let* w := get_world in
              match kicks w !! oid with
              | None => ret None
              | Some k =>
                  let k' := mkKick (k_id k) (upd_str (title k) (ku_title u))
                        (upd_str (description k) (ku_description u))
                        (upd_opt_str (location k) (ku_location u))
                        (upd_str (category k) (ku_category u))
                        (upd_str (status k) (ku_status u))
                        (completionDate k)
                        (if is_undefined (ku_targetDate u) then targetDate k else td')
                        (author k) (comments k) (createdAt k) in
                  let* _ := set_kicks (<[oid := k']> (kicks w)) in
                  ret (Some k')
              end
          end
      end
  end.

(** [kick.comments.id(commentId)] *)
Definition comments_id (cs : list comment) (commentId : string) : option comment :=
  match cast_oid commentId with
  | None => None
  | Some x => find (fun c => String.eqb (c_id c) x) cs
  end.

(** [kick.comments.pull(commentId)] *)
Definition comments_pull (cs : list comment) (commentId : string) : list comment :=
  match cast_oid commentId with
  | None => cs
  | Some x => filter (fun c => negb (String.eqb (c_id c) x)) cs
  end.
End Store.

(* ------------------------------------------------------------------ *)
(** ** Kick routes ([src/controllers/KickController.js]) *)

(** The fields the kick routes read from [req.body || {}]; [b_author] is a
    key a client may send, which no handler reads. *)
Record kick_body := mkKickBody {
  b_title : jsval;
  b_description : jsval;
  b_category : jsval;
  b_location : jsval;
  b_targetDate : jsval;
  b_status : jsval;
  b_author : jsval
}.

Definition empty_body : kick_body :=
  mkKickBody JUndefined JUndefined JUndefined JUndefined JUndefined JUndefined
    JUndefined.

Inductive kick_request :=
| PostKick (b : kick_body)
| ListKicks
| GetKick (kickId : string)
| DeleteKick (kickId : string)
| PutKick (kickId : string) (b : kick_body)
| PostComment (kickId : string) (text : jsval)
| DeleteComment (kickId commentId : string)
| PutComment (kickId commentId : string) (text : jsval)
| PatchStatus (kickId : string) (st : jsval).

(** [title === undefined && ... && status === undefined] *)
Definition no_update_fields (b : kick_body) : bool :=
  is_undefined (b_title b) && is_undefined (b_description b)
  && is_undefined (b_category b) && is_undefined (b_location b)
  && is_undefined (b_targetDate b) && is_undefined (b_status b).

Definition invalid_id : M response := reply 400 (BError "Invalid kick ID format.").

(** [if (!x) ...; x] for an optional field copied into [kickData]. *)
Definition if_truthy (v : jsval) : jsval := if truthy v then v else JUndefined.

(** [if (!text || !text.trim()) missing; ... text.trim() ...] *)
Definition with_text (text : jsval) (missing : M response)
    (k : string -> M response) : M response :=
  if negb (truthy text) then missing
  else match text with
       | JStr s => if String.eqb (trim s) "" then missing else k (trim s)
       | _ => throw (TypeError "text.trim is not a function")
       end.

Definition replace_comment_text (cid t : string) (cs : list comment) : list comment :=
  map (fun c => if String.eqb (c_id c) cid then mkComment (c_id c) t (c_author c) else c) cs.

Section KickRoutes.
Variable parse_date : string -> option Z.
Variable user : identity.

Definition validation_failed (msgs : list string) : string :=
  "Validation failed: " ++ String.concat ". " msgs.

(** POST /kicks *)
Definition post_kick (b : kick_body) : M response :=
  try_catch
    (if negb (truthy (b_title b)) || negb (truthy (b_category b)) then
       let missing := app (if truthy (b_title b) then [] else ["title"])
                          (if truthy (b_category b) then [] else ["category"]) in
       reply 400 (BError ("Missing required fields: " ++ String.concat ", " missing
                          ++ ". Please provide a title and category for your kick."))
     else
       let kickData := mkKickData (b_title b) (if_truthy (b_description b))
                         (b_category b) (if_truthy (b_location b))
                         (if_truthy (b_targetDate b)) (if_truthy (b_status b))
                         (id_id user) in
       let* newKick := Kick_create parse_date kickData in
       reply 201 (BKick newKick))
    (fun e => match e with
              | ValidationError msgs => reply 400 (BError (validation_failed msgs))
              | _ => reply 500 (BError "Failed to create kick. Please try again.")
              end).

(** GET /kicks *)
Definition list_kicks : M response :=
  try_catch
    (let* ks := Kick_find_by_author (id_id user) in reply 200 (BKicks ks))
    (fun _ => reply 500 (BError
       "Failed to load your kicks. Please refresh the page and try again.")).

(** GET /kicks/:kickId *)
Definition get_kick (kickId : string) : M response :=
  try_catch
    (if negb (is_hex24 kickId) then invalid_id else
     let* kick := Kick_findById kickId in
     match kick with
     | None => reply 404 (BError "Kick not found. It may have been deleted.")
     | Some k => reply 200 (BKick k)
     end)
    (fun _ => reply 500 (BError "Failed to load kick details. Please try again.")).

(** DELETE /kicks/:kickId *)
Definition delete_kick (kickId : string) : M response :=
  try_catch
    (if negb (is_hex24 kickId) then invalid_id else
     let* kick := Kick_findById kickId in
     match kick with
     | None => reply 404 (BError "Kick not found. It may have already been deleted.")
     | Some k =>
         if negb (oid_equals (author k) (id_id user)) then
           reply 403 (BError "You do not have permission to delete this kick.")
         else
           let* _ := Kick_findByIdAndDelete kickId in
           reply 200 (BMessage "Kick deleted successfully")
     end)
    (fun _ => reply 500 (BError "Failed to delete kick. Please try again.")).

(** PUT /kicks/:kickId *)
Definition put_kick (kickId : string) (b : kick_body) : M response :=
  try_catch
    (if negb (is_hex24 kickId) then invalid_id else
     if no_update_fields b then
       reply 400 (BError "Please provide at least one field to update (title, description, category, location, targetDate, or status).")
     else
     let* kick := Kick_findById kickId in
     match kick with
     | None => reply 404 (BError "Kick not found. It may have been deleted.")
     | Some k =>
         if negb (oid_equals (author k) (id_id user)) then
           reply 403 (BError "You do not have permission to edit this kick.")
         else
           let updateFields := mkKickUpdate (b_title b) (b_description b)
                                 (b_category b) (b_location b) (b_targetDate b)
                                 (b_status b) in
           let* updatedKick := Kick_findByIdAndUpdate parse_date kickId updateFields in
           reply 200 (match updatedKick with Some k' => BKick k' | None => BNull end)
     end)
    (fun e => match e with
              | ValidationError msgs => reply 400 (BError (validation_failed msgs))
              | _ => reply 500 (BError "Failed to update kick. Please try again.")
              end).

(** POST /kicks/:kickId/comments *)
Definition post_comment (kickId : string) (text : jsval) : M response :=
  try_catch
    (if negb (is_hex24 kickId) then invalid_id else
     with_text text
       (reply 400 (BError "Comment text is required. Please write a comment before posting."))
       (fun t =>
          let* kick := Kick_findById kickId in
          match kick with
          | None => reply 404 (BError "Kick not found. Cannot add comment.")
          | Some k =>
              (* kick.comments.push(newComment): the subdocument gets an
                 _id and its author is cast to an ObjectId *)
              let* cid := fresh_oid in
              match cast_oid (id_id user) with
              | None => throw (ValidationError
                                ["Cast to ObjectId failed for path `author`"])
              | Some a =>
                  let* _ := Kick_save (set_comments k (app (comments k) [mkComment cid t a])) in
                  reply 201 (BNewComment t (id_id user))
              end
          end))
    (fun _ => reply 500 (BError "Failed to add comment. Please try again.")).

(** DELETE /kicks/:kickId/comments/:commentId *)
Definition delete_comment (kickId commentId : string) : M response :=
  try_catch
    (if negb (is_hex24 kickId) then invalid_id else
     let* kick := Kick_findById kickId in
     match kick with
     | None => reply 404 (BError "Kick not found. Cannot delete comment.")
     | Some k =>
         match comments_id (comments k) commentId with
         | None => reply 404 (BError "Comment not found. It may have already been deleted.")
         | Some c =>
             if negb (oid_equals (c_author c) (id_id user)) then
               reply 403 (BError "You can only delete your own comments.")
             else
               let* _ := Kick_save (set_comments k (comments_pull (comments k) commentId)) in
               reply 200 (BMessage "Comment deleted successfully")
         end
     end)
    (fun _ => reply 500 (BError "Failed to delete comment. Please try again.")).

(** PUT /kicks/:kickId/comments/:commentId *)
Definition put_comment (kickId commentId : string) (text : jsval) : M response :=
  try_catch
    (if negb (is_hex24 kickId) then invalid_id else
     with_text text
       (reply 400 (BError "Comment text is required. Please provide text for your comment."))
       (fun t =>
          let* kick := Kick_findById kickId in
          match kick with
          | None => reply 404 (BError "Kick not found. Cannot update comment.")
          | Some k =>
              match comments_id (comments k) commentId with
              | None => reply 404 (BError "Comment not found. It may have been deleted.")
              | Some c =>
                  if negb (oid_equals (c_author c) (id_id user)) then
                    reply 403 (BError "You can only edit your own comments.")
                  else
                    let c' := mkComment (c_id c) t (c_author c) in
                    let* _ := Kick_save (set_comments k
                                (replace_comment_text (c_id c) t (comments k))) in
                    reply 200 (BComment c')
              end
          end))
    (fun _ => reply 500 (BError "Failed to update comment. Please try again.")).

(** PATCH /kicks/:kickId/status *)
Definition patch_status (kickId : string) (st : jsval) : M response :=
  try_catch
    (if negb (is_hex24 kickId) then invalid_id else
     if negb (truthy st) then
       reply 400 (BError "Status is required. Please provide a valid status (Open or Completed).")
     else
     let* kick := Kick_findById kickId in
     match kick with
     | None => reply 404 (BError "Kick not found. Cannot update status.")
     | Some k =>
         if negb (oid_equals (author k) (id_id user)) then
           reply 403 (BError "You do not have permission to update this kick's status.")
         else
           let* k' := Kick_save (set_status k (default "" (cast_string st))) in
           reply 200 (BKick k')
     end)
    (fun e => match e with
              | ValidationError _ =>
                  reply 400 (BError "Invalid status value. Status must be 'Open' or 'Completed'.")
              | _ => reply 500 (BError "Failed to update kick status. Please try again.")
              end).

Definition kick_handler (r : kick_request) : M response :=
  match r with
  | PostKick b => post_kick b
  | ListKicks => list_kicks
  | GetKick id => get_kick id
  | DeleteKick id => delete_kick id
  | PutKick id b => put_kick id b
  | PostComment id t => post_comment id t
  | DeleteComment id cid => delete_comment id cid
  | PutComment id cid t => put_comment id cid t
  | PatchStatus id s => patch_status id s
  end.
End KickRoutes.

(** [router.use(verifyToken)] in front of every kick route. *)
Definition kick_router (jwt_verify : string -> identity + jwt_error)
    (parse_date : string -> option Z) (authorization : option string)
    (r : kick_request) : M response :=
  match verifyToken jwt_verify authorization with
  | Reject resp => ret resp
  | Admit u => kick_handler parse_date u r
  end.

(* ------------------------------------------------------------------ *)
(** ** Account routes ([src/controllers/AuthController.js]) *)

(** The fields the account routes read from [req.body]. *)
Record auth_body := mkAuthBody {
  a_username : jsval;
  a_password : jsval;
  a_name : jsval;
  a_email : jsval
}.

Definition invalid_credentials : string :=
  "Invalid username or password. Please check your credentials and try again.".

(** [User.findOne({ username })] *)
Definition User_findOne (v : jsval) : M (option user) :=
  let key := cast_string v in
  let* _ := log_op (OpFindUser key) in
  let* w := get_world in
  ret (match key with
       | None => None
       | Some s => find (fun u => String.eqb (username u) s) (users w)
       end).

(** Modelled from the spec: [User.create] for the missing
    [src/models/User.js]: the four paths are required strings, and the
    unique indexes on the handle and the email make a second account with
    either one fail with the driver's duplicate-key error (code 11000). *)
Definition User_create (un nm em : jsval) (hash : string) : M user :=
  let* id := fresh_oid in
  let u := cast_string un in
  let n := cast_string nm in
  let e := cast_string em in
  let errs := somes [path_error "username" true None u; path_error "name" true None n;
                     path_error "email" true None e] in
  match errs, u, n, e with
  | [], Some u', Some n', Some e' =>
      let* w := get_world in
      if existsb (fun x => String.eqb (username x) u') (users w) then
        throw (DuplicateKey "username")
      else if existsb (fun x => String.eqb (email x) e') (users w) then
        throw (DuplicateKey "email")
      else
        let usr := mkUser id u' n' e' hash in
        let* _ := log_op (OpCreateUser id) in
        let* _ := set_users (app (users w) [usr]) in
        ret usr
  | _, _, _, _ => throw (ValidationError errs)
  end.

Section AuthRoutes.
(** [bcrypt.hashSync(password, saltRounds)] on a string. *)
Variable hashSync : string -> string.
(** [bcrypt.compareSync(password, hash)] on strings. *)
Variable compareSync : string -> string -> bool.
(** [jwt.sign({ payload }, process.env.JWT_SECRET)] *)
Variable jwt_sign : identity -> string.

(** bcrypt refuses anything but a string. *)
Definition bcrypt_hash (v : jsval) : M string :=
  match v with
  | JStr p => ret (hashSync p)
  | _ => throw (HashError "data must be a string or Buffer and salt must either be a salt string or a number of rounds")
  end.

Definition bcrypt_compare (v : jsval) (hash : string) : M bool :=
  match v with
  | JStr p => ret (compareSync p hash)
  | _ => throw (HashError "data must be a string or Buffer and hash must be strings")
  end.

Definition token_reply (c : Z) (u : user) : M response :=
  let token := jwt_sign (mkIdentity (username u) (u_id u)) in
  reply c (BToken token (u_id u) (username u) (name u) (email u)).

(** POST /auth/signup *)
Definition signup (b : auth_body) : M response :=
  try_catch
    (if negb (truthy (a_username b)) || negb (truthy (a_password b))
        || negb (truthy (a_name b)) || negb (truthy (a_email b)) then
       let missing := app (if truthy (a_username b) then [] else ["username"])
                     (app (if truthy (a_password b) then [] else ["password"])
                     (app (if truthy (a_name b) then [] else ["name"])
                          (if truthy (a_email b) then [] else ["email"]))) in
       reply 400 (BErr ("Missing required fields: " ++ String.concat ", " missing
                        ++ ". Please fill in all required information."))
     else
       let* userInDatabase := User_findOne (a_username b) in
       match userInDatabase with
       | Some _ =>
           reply 409 (BErr "This username is already taken. Please choose a different username.")
       | None =>
           let* hash := bcrypt_hash (a_password b) in
           let* usr := User_create (a_username b) (a_name b) (a_email b) hash in
           token_reply 201 usr
       end)
    (fun e => match e with
              | DuplicateKey field =>
                  reply 409 (BErr ("This " ++ field ++ " is already registered. Please use a different "
                                   ++ field ++ " or sign in."))
              | ValidationError msgs => reply 400 (BErr (String.concat ". " msgs))
              | _ => reply 500 (BErr "An error occurred during sign up. Please try again.")
              end).

(** POST /auth/signin *)
Definition signin (b : auth_body) : M response :=
  try_catch
    (if negb (truthy (a_username b)) || negb (truthy (a_password b)) then
       reply 400 (BErr "Please provide both username and password to sign in.")
     else
       let* found := User_findOne (a_username b) in
       match found with
       | None => reply 401 (BErr invalid_credentials)
       | Some u =>
           let* isPasswordCorrect := bcrypt_compare (a_password b) (hashedPassword u) in
           if negb isPasswordCorrect then reply 401 (BErr invalid_credentials)
           else token_reply 200 u
       end)
    (fun _ => reply 500 (BErr "An error occurred during sign in. Please try again.")).
End AuthRoutes.

(* ------------------------------------------------------------------ *)
(** ** Vocabulary of the properties *)



(** The [:kickId] path parameter of a request, if it has one. *)
Definition request_kickId (r : kick_request) : option string :=
  match r with
  | PostKick _ | ListKicks => None
  | GetKick id | DeleteKick id | PutKick id _ | PostComment id _
  | DeleteComment id _ | PutComment id _ _ | PatchStatus id _ => Some id
  end.

(** The world after [Kick.findById] has looked for [oid]. *)
Definition after_find (oid : string) (w : world) : world :=
  mkWorld (kicks w) (users w) (next_oid w) (app (log w) [OpFindKick oid]).

Definition with_b_author (b : kick_body) (a : jsval) : kick_body :=
  mkKickBody (b_title b) (b_description b) (b_category b) (b_location b)
    (b_targetDate b) (b_status b) a.


Definition is_token (b : body) : bool :=
  match b with BToken _ _ _ _ _ => true | _ => false end.

Definition signin_body (h p : jsval) : auth_body := mkAuthBody h p JUndefined JUndefined.

(* ------------------------------------------------------------------ *)
(** ** Concrete worlds used by the examples *)

Definition no_dates (_ : string) : option Z := None.
Definition alice_id : string := oid_of 1000.
Definition bob_id : string := oid_of 2000.
Definition alice : identity := mkIdentity "alice" alice_id.
Definition bob : identity := mkIdentity "bob" bob_id.

(** Alice's kick, with one comment by Bob. *)
Definition kick0 : kick :=
  mkKick (oid_of 0) "Learn Rock Climbing" "Indoor wall first" None "Sports" "Open"
    None None alice_id [mkComment (oid_of 1) "Count me in" bob_id] 1.

Definition world0 : world := mkWorld {[ oid_of 0 := kick0 ]} [] 2 [].

(** A token service that knows one token. *)
Definition verify_abc (t : string) : identity + jwt_error :=
  if String.eqb t "abc" then inl alice else inr JsonWebTokenError.

Definition alice_account : user :=
  mkUser (oid_of 500) "alice" "Alice" "alice@example.com" "hash:secret".

Definition accounts0 : world := mkWorld ∅ [alice_account] 501 [].

Definition hash0 (p : string) : string := "hash:" ++ p.
Definition compare0 (p h : string) : bool := String.eqb (hash0 p) h.
Definition sign0 (i : identity) : string := "token:" ++ id_id i.

(** A complete kick body: title, description and category. *)
Definition sports_body : kick_body :=
  mkKickBody (JStr "Learn Rock Climbing") (JStr "Indoor wall first") (JStr "Sports")
    JUndefined JUndefined JUndefined JUndefined.

Definition rock_climbing_body : kick_body :=
  mkKickBody (JStr "Learn Rock Climbing") JUndefined (JStr "Adventure") JUndefined
    JUndefined JUndefined JUndefined.

(* ------------------------------------------------------------------ *)
(** ** Relations between the world before and after a run *)

(** Every run of [m] relates the world before to the world after by [R]. *)
Definition keeps {A} (R : world -> world -> Prop) (m : M A) : Prop :=
  forall w, R w (snd (m w)).

Definition same_users (w w' : world) : Prop := users w' = users w.
Definition same_kicks (w w' : world) : Prop := kicks w' = kicks w.

(** The same keys are stored, and each kick keeps its id, author,
    comments and creation stamp. *)
Definition same_shape (w w' : world) : Prop :=
  forall id, match kicks w !! id, kicks w' !! id with
             | Some k, Some k' =>
                 k_id k' = k_id k /\ author k' = author k
                 /\ comments k' = comments k /\ createdAt k' = createdAt k
             | None, None => True
             | _, _ => False
             end.

(** Newest first: [createdAt] does not increase along the list. *)
Definition created_desc (a b : kick) : Prop := (createdAt b <= createdAt a)%N.

(* ------------------------------------------------------------------ *)
(** ** Sanity checks *)

Example number_to_string_ex : number_to_string (-42) = "-42".
Proof. reflexivity. Qed.
Example split_sp_ex : split_sp "Bearer  tok" = ["Bearer"; ""; "tok"].
Proof. reflexivity. Qed.
Example trim_ex : trim "  hi there 	" = "hi there".
Proof. reflexivity. Qed.
Example trim_nbsp_ex : trim (String "194"%char (String "160"%char "hi")) = "hi".
Proof. reflexivity. Qed.
Example trim_nbsp_only_ex : trim (String "194"%char (String "160"%char "")) = "".
Proof. reflexivity. Qed.
Example trim_u3000_ex :
  trim ("a b" ++ String "227"%char (String "128"%char (String "128"%char "")))
  = "a b".
Proof. reflexivity. Qed.
Example trim_keeps_e_acute_ex :
  trim (String "195"%char (String "169"%char " ")) = String "195"%char (String "169"%char "").
Proof. reflexivity. Qed.
(** A target date beyond the range of [Date] fails the update's cast:
    the owner's PUT is answered 500, not 400, whatever the status. *)
Example put_huge_date_ex :
  fst (put_kick no_dates alice (oid_of 0)
         (mkKickBody JUndefined JUndefined JUndefined JUndefined
            (JNum 10000000000000000) (JStr "Bad") JUndefined) world0)
  = inl (mkResponse 500 (BError "Failed to update kick. Please try again.")).
Proof. vm_compute. reflexivity. Qed.
(** A comment text made only of a no-break space (U+00A0) is blank. *)
Example put_comment_nbsp_ex :
  fst (put_comment alice (oid_of 0) (oid_of 1)
         (JStr (String "194"%char (String "160"%char ""))) world0)
  = inl (mkResponse 400 (BError "Comment text is required. Please provide text for your comment.")).
Proof. vm_compute. reflexivity. Qed.
Example oid_of_ex : oid_of 255 = "0000000000000000000000ff".
Proof. reflexivity. Qed.
Example is_hex24_ex : is_hex24 "507F1F77BCF86CD799439011" = true.
Proof. reflexivity. Qed.


(* ------------------------------------------------------------------ *)
(** ** Lemmas about identifiers *)

Lemma cast_oid_hex24 (s : string) :
  is_hex24 s = true -> cast_oid s = Some (lower_ascii s).
Proof. intros H. unfold cast_oid. now rewrite H. Qed.

Lemma cast_oid_not_hex24 (s : string) :
  is_hex24 s = false -> cast_oid s = None.
Proof. intros H. unfold cast_oid. now rewrite H. Qed.

Lemma oid_equals_false (a u : string) :
  cast_oid u <> Some a -> oid_equals a u = false.
Proof.
  intros H. unfold oid_equals. destruct (cast_oid u) as [x|] eqn:E; [|reflexivity].
  destruct (String.eqb_spec x a) as [->|]; [contradiction|reflexivity].
Qed.

Lemma oid_equals_true (a u : string) :
  cast_oid u = Some a -> oid_equals a u = true.
Proof. intros H. unfold oid_equals. rewrite H. apply String.eqb_refl. Qed.

(* ------------------------------------------------------------------ *)
(** ** C1: kick edits and deletions by someone other than the author *)

(** C1 (as stated, refuted): a PUT with an empty body by Bob on Alice's
    kick is answered 400, not 403: the check that some field is supplied
    runs before the ownership check. *)
Lemma C1_put_empty_body_not_403 :
  fst (put_kick no_dates bob (oid_of 0) empty_body world0)
  = inl (mkResponse 400 (BError "Please provide at least one field to update (title, description, category, location, targetDate, or status).")).
Proof. vm_compute. reflexivity. Qed.

(** C1 (amended): a DELETE of a stored kick by a caller who is not its
    author is answered 403; a PUT by such a caller is answered 403 when
    it supplies one of the six updatable fields and 400 when it supplies
    none; in every case the stored kicks are unchanged. *)
Lemma C1_non_owner_put_delete_rejected (parse_date : string -> option Z)
    (user : identity) (kickId : string) (k : kick) (w : world) :
  is_hex24 kickId = true ->
  kicks w !! lower_ascii kickId = Some k ->
  cast_oid (id_id user) <> Some (author k) ->
  (exists w', delete_kick user kickId w
     = (inl (mkResponse 403 (BError "You do not have permission to delete this kick.")), w')
     /\ kicks w' = kicks w) /\
  (forall b : kick_body, exists w',
     put_kick parse_date user kickId b w
     = (inl (if no_update_fields b
             then mkResponse 400 (BError "Please provide at least one field to update (title, description, category, location, targetDate, or status).")
             else mkResponse 403 (BError "You do not have permission to edit this kick.")), w')
     /\ kicks w' = kicks w).
Proof.
  intros Hid Hk Hne. pose proof (oid_equals_false _ _ Hne) as Heq.
  split.
  - unfold delete_kick, try_catch, bind, Kick_findById, log_op, get_world, ret, reply.
    rewrite Hid, (cast_oid_hex24 _ Hid). cbn. rewrite Hk, Heq. cbn.
    eexists; split; reflexivity.
  - intros b. unfold put_kick, try_catch, bind, Kick_findById, log_op, get_world, ret, reply.
    rewrite Hid, (cast_oid_hex24 _ Hid). cbn.
    destruct (no_update_fields b).
    + eexists; split; reflexivity.
    + cbn. rewrite Hk, Heq. cbn. eexists; split; reflexivity.
Qed.

(* ------------------------------------------------------------------ *)
(** ** Lemmas about the schema validators and [Kick.create] *)

Lemma somes_nil_cons (x : option string) (l : list (option string)) :
  somes (x :: l) = [] -> x = None /\ somes l = [].
Proof. destruct x; simpl; [discriminate | auto]. Qed.

Lemma somes_cons_some (m : string) (l : list (option string)) :
  somes (Some m :: l) <> [].
Proof. simpl. discriminate. Qed.

Lemma status_error_none (s : string) :
  status_error (Some s) = None -> in_enum status_enum s = true.
Proof.
  unfold status_error, path_error. cbv beta iota.
  destruct (in_enum status_enum s) eqn:E; [reflexivity|].
  destruct (String.eqb s ""); cbn [andb]; discriminate.
Qed.




Lemma Kick_create_inl (parse_date : string -> option Z) (kd : kick_data)
    (w : world) (k : kick) (w' : world) :
  Kick_create parse_date kd w = (inl k, w') ->
  k_id k = oid_of (next_oid w) /\
  cast_oid (kd_author kd) = Some (author k) /\
  comments k = [] /\
  (is_undefined (kd_status kd) = true -> status k = "Open") /\
  (is_undefined (kd_status kd) = false -> cast_string (kd_status kd) = Some (status k)) /\
  in_enum status_enum (status k) = true /\
  kicks w' = <[k_id k := k]> (kicks w).
Proof.
  unfold Kick_create, bind, fresh_oid, get_world, log_op, set_kicks, ret, throw.
  cbn [fst snd next_oid kicks users log].
  destruct (somes _) as [|m ms] eqn:Herrs; [|discriminate].
  apply somes_nil_cons in Herrs as [Ht Herrs].
  apply somes_nil_cons in Herrs as [Hd Herrs].
  apply somes_nil_cons in Herrs as [Hc Herrs].
  apply somes_nil_cons in Herrs as [Hs Herrs].
  destruct (cast_string (kd_title kd)) as [t|]; [|discriminate].
  destruct (cast_string (kd_description kd)) as [d|]; [|discriminate].
  destruct (cast_string (kd_category kd)) as [c|]; [|discriminate].
  destruct (is_undefined (kd_status kd)) eqn:Hu.
  - destruct (cast_date parse_date (kd_targetDate kd)) as [td|]; [|discriminate].
    destruct (cast_oid (kd_author kd)) as [a|]; [|discriminate].
    intros H. injection H as <- <-. cbn.
    repeat split; auto. intros; congruence.
  - destruct (cast_string (kd_status kd)) as [s|]; [|discriminate].
    destruct (cast_date parse_date (kd_targetDate kd)) as [td|]; [|discriminate].
    destruct (cast_oid (kd_author kd)) as [a|]; [|discriminate].
    intros H. injection H as <- <-. cbn.
    repeat split; auto; [intros; congruence | now apply status_error_none].
Qed.


(* ------------------------------------------------------------------ *)
(** ** C2: the author of a created kick is the caller *)

(** C2: when POST /kicks succeeds (201), the created kick is stored and its
    author is the caller's identifier from the verified token (as an
    ObjectId); the answer does not depend on an [author] key of the body. *)
Lemma C2_post_kick_author_is_caller (parse_date : string -> option Z)
    (user : identity) (b : kick_body) (w : world) (r : response) (w' : world) :
  post_kick parse_date user b w = (inl r, w') ->
  code r = 201%Z ->
  (exists k, rbody r = BKick k /\ cast_oid (id_id user) = Some (author k)
             /\ kicks w' !! k_id k = Some k) /\
  (forall a : jsval,
     post_kick parse_date user (with_b_author b a) w = post_kick parse_date user b w).
Proof.
  intros H Hcode. split; [|intros a; reflexivity].
  unfold post_kick, try_catch, bind, reply, ret in H.
  destruct (negb (truthy (b_title b)) || negb (truthy (b_category b))).
  - injection H as <- _. discriminate Hcode.
  - match type of H with
    | context [Kick_create parse_date ?kd w] =>
        destruct (Kick_create parse_date kd w) as [[k|e] w1] eqn:E
    end.
    + injection H as <- <-. apply Kick_create_inl in E as (_ & Ha & _ & _ & _ & _ & Hks).
      exists k. split; [reflexivity|]. split; [exact Ha|].
      cbn. rewrite Hks. apply lookup_insert_eq.
    + destruct e; injection H as <- _; discriminate Hcode.
Qed.

(* ------------------------------------------------------------------ *)
(** ** C3: comment edits and deletions by someone other than its author *)

(** C3 (as stated, refuted): Alice owns the kick, Bob wrote its comment;
    Alice's PUT of that comment with an empty text is answered 400, not
    403: the text check runs before the authorship check. *)
Lemma C3_put_empty_text_not_403 :
  fst (put_comment alice (oid_of 0) (oid_of 1) (JStr "") world0)
  = inl (mkResponse 400 (BError "Comment text is required. Please provide text for your comment.")).
Proof. vm_compute. reflexivity. Qed.

(** C3 (amended): when the kick and the comment exist and the caller is not
    the comment's author (whether or not the caller owns the kick), a
    DELETE is answered 403; a PUT is answered 403 when its text is a string
    that is not blank, and 400 when the text is missing, empty or blank
    (the text check runs before the authorship check); the stored kicks are
    unchanged whatever the text. *)
Lemma C3_non_author_comment_change_rejected (user : identity)
    (kickId commentId : string) (k : kick) (c : comment) (w : world) :
  is_hex24 kickId = true ->
  kicks w !! lower_ascii kickId = Some k ->
  comments_id (comments k) commentId = Some c ->
  cast_oid (id_id user) <> Some (c_author c) ->
  (exists w', delete_comment user kickId commentId w
     = (inl (mkResponse 403 (BError "You can only delete your own comments.")), w')
     /\ kicks w' = kicks w) /\
  (forall text : jsval, exists r w',
     put_comment user kickId commentId text w = (inl r, w')
     /\ kicks w' = kicks w
     /\ (forall s, text = JStr s -> code r = if String.eqb (trim s) "" then 400%Z else 403%Z)
     /\ (truthy text = false -> code r = 400%Z)).
Proof.
  intros Hid Hk Hc Hne. pose proof (oid_equals_false _ _ Hne) as Heq.
  split.
  - unfold delete_comment, try_catch, bind, Kick_findById, log_op, get_world, ret, reply.
    rewrite Hid, (cast_oid_hex24 _ Hid). cbn. rewrite Hk. cbn. rewrite Hc, Heq.
    eexists; split; reflexivity.
  - intros text.
    unfold put_comment, with_text, try_catch, bind,
      Kick_findById, log_op, get_world, ret, reply, throw.
    rewrite Hid, (cast_oid_hex24 _ Hid). cbn -[trim].
    destruct text as [| |bb|z|s]; cbn -[trim].
    + eexists _, _; split; [reflexivity|]; split; [reflexivity|];
        split; intros; [discriminate | reflexivity].
    + eexists _, _; split; [reflexivity|]; split; [reflexivity|];
        split; intros; [discriminate | reflexivity].
    + destruct bb; eexists _, _; split; try reflexivity; split; try reflexivity;
        split; intros; try discriminate; reflexivity.
    + destruct (Z.eqb z 0); eexists _, _; split; try reflexivity; split; try reflexivity;
        split; intros; try discriminate; reflexivity.
    + destruct (String.eqb_spec s "") as [->|Hs].
      * eexists _, _; split; [reflexivity|]; split; [reflexivity|].
        split; [intros s0 E; injection E as <-; reflexivity | reflexivity].
      * cbn -[trim]. destruct (String.eqb (trim s) "") eqn:Ht.
        -- eexists _, _; split; [reflexivity|]; split; [reflexivity|].
           split; [intros s0 E; injection E as <-; now rewrite Ht|].
           intros E; exfalso; apply Hs; destruct s; [reflexivity | cbn in E; discriminate E].
        -- cbn -[trim]. rewrite Hk. cbn -[trim]. rewrite Hc, Heq.
           eexists _, _; split; [reflexivity|]; split; [reflexivity|].
           split; [intros s0 E; injection E as <-; now rewrite Ht|].
           intros E; exfalso; apply Hs; destruct s; [reflexivity | cbn in E; discriminate E].
Qed.

(* ------------------------------------------------------------------ *)
(** ** C4: the authentication gate *)

(** C4 (as stated, refuted): the header ["Token abc"] is not of the form
    [Bearer <token>], yet the gate admits the request when ["abc"]
    verifies: only the second space-separated part is looked at. *)
Lemma C4_non_bearer_scheme_admitted :
  verifyToken verify_abc (Some "Token abc") = Admit alice.
Proof. reflexivity. Qed.

(** C4 (amended): the gate admits a request exactly when the Authorization
    header is present and non-empty and its second space-separated part is
    non-empty and verifies (the scheme word and further parts are not
    checked); a missing or empty header is refused with the missing-token
    error, a header without a non-empty second part with the
    malformed-header error; every refusal is a 401 sent before any kick
    route runs, with the world untouched. *)
Lemma C4_gate_behaviour (jwt_verify : string -> identity + jwt_error)
    (authorization : option string) :
  (forall u : identity,
     verifyToken jwt_verify authorization = Admit u <->
     exists h t, authorization = Some h /\ h <> "" /\
                 nth_error (split_sp h) 1 = Some t /\ t <> "" /\ jwt_verify t = inl u) /\
  ((authorization = None \/ authorization = Some "") ->
     verifyToken jwt_verify authorization
     = Reject (mkResponse 401 (BErr "No authentication token provided. Please sign in."))) /\
  (forall h, authorization = Some h -> h <> "" ->
     (nth_error (split_sp h) 1 = None \/ nth_error (split_sp h) 1 = Some "") ->
     verifyToken jwt_verify authorization
     = Reject (mkResponse 401 (BErr "Invalid authentication format. Please sign in again."))) /\
  (forall r, verifyToken jwt_verify authorization = Reject r ->
     code r = 401%Z /\
     forall parse_date req w, kick_router jwt_verify parse_date authorization req w = (inl r, w)).
Proof.
  split; [|split; [|split]].
  - intros u. split.
    + unfold verifyToken, gate_reject. destruct authorization as [h|]; [|discriminate].
      destruct (String.eqb_spec h "") as [->|Hh]; [discriminate|].
      destruct (nth_error (split_sp h) 1) as [[|ch t]|] eqn:Ht; try discriminate.
      destruct (jwt_verify (String ch t)) as [p|[]] eqn:Hv; try discriminate.
      intros H. injection H as <-. exists h, (String ch t). repeat split; auto; discriminate.
    + intros (h & t & -> & Hh & Ht & Hne & Hv). unfold verifyToken.
      destruct (String.eqb_spec h "") as [|_]; [contradiction|].
      rewrite Ht. destruct t as [|ch t]; [contradiction|]. now rewrite Hv.
  - intros [-> | ->]; reflexivity.
  - intros h -> Hh Ht. unfold verifyToken.
    destruct (String.eqb_spec h "") as [|_]; [contradiction|].
    destruct Ht as [Ht|Ht]; now rewrite Ht.
  - intros r Hr. split.
    + revert Hr. unfold verifyToken, gate_reject.
      destruct authorization as [h|]; [|intros H; now injection H as <-].
      destruct (String.eqb h ""); [intros H; now injection H as <-|].
      destruct (nth_error (split_sp h) 1) as [[|ch t]|];
        try (intros H; now injection H as <-).
      destruct (jwt_verify (String ch t)) as [p|[]]; try discriminate;
        intros H; now injection H as <-.
    + intros parse_date req w. unfold kick_router. rewrite Hr. reflexivity.
Qed.

(* ------------------------------------------------------------------ *)
(** ** Fresh ObjectIds are well formed *)

Lemma list_ascii_of_string_append (s1 s2 : string) :
  list_ascii_of_string (s1 ++ s2)
  = app (list_ascii_of_string s1) (list_ascii_of_string s2).
Proof. induction s1 as [|c s1 IH]; simpl; [reflexivity | now rewrite IH]. Qed.

Lemma string_length_append (s1 s2 : string) :
  String.length (s1 ++ s2) = (String.length s1 + String.length s2)%nat.
Proof. induction s1 as [|c s1 IH]; simpl; [reflexivity | now rewrite IH]. Qed.

Lemma lower_ascii_append (s1 s2 : string) :
  lower_ascii (s1 ++ s2) = lower_ascii s1 ++ lower_ascii s2.
Proof. induction s1 as [|c s1 IH]; simpl; [reflexivity | now rewrite IH]. Qed.

Lemma hex_digit_ok (m : N) :
  (m < 16)%N -> is_hex_char (hex_digit m) = true /\ lower_char (hex_digit m) = hex_digit m.
Proof.
  intros Hm. rewrite <- (N2Nat.id m).
  assert (Hk : (N.to_nat m < 16)%nat) by lia.
  remember (N.to_nat m) as k eqn:Ek. clear Ek Hm.
  do 16 (destruct k as [|k]; [vm_compute; split; reflexivity|]). lia.
Qed.

Lemma hex_pad_ok (k : nat) (n : N) :
  String.length (hex_pad k n) = k /\
  forallb is_hex_char (list_ascii_of_string (hex_pad k n)) = true /\
  lower_ascii (hex_pad k n) = hex_pad k n.
Proof.
  revert n. induction k as [|k IH]; intros n; [repeat split|].
  simpl hex_pad. destruct (IH (n / 16)%N) as (Hl & Hh & Hlo).
  assert (Hlt : (n mod 16 < 16)%N) by (apply N.mod_lt; discriminate).
  destruct (hex_digit_ok _ Hlt) as [Hd Hld].
  rewrite string_length_append, list_ascii_of_string_append, forallb_app,
    lower_ascii_append, Hl, Hh, Hlo. simpl. rewrite Hd, Hld.
  repeat split; lia.
Qed.

Lemma oid_of_hex24 (n : N) : is_hex24 (oid_of n) = true.
Proof.
  unfold is_hex24, oid_of. destruct (hex_pad_ok 24 n) as (Hl & Hh & _).
  now rewrite Hl, Hh.
Qed.

Lemma lower_oid_of (n : N) : lower_ascii (oid_of n) = oid_of n.
Proof. apply (hex_pad_ok 24 n). Qed.

(* ------------------------------------------------------------------ *)
(** ** C5: create then fetch *)

Lemma Kick_create_valid (parse_date : string -> option Z) (t d c uid : string)
    (w : world) :
  t <> "" -> d <> "" -> in_enum category_enum c = true -> is_hex24 uid = true ->
  exists k w', Kick_create parse_date
                 (mkKickData (JStr t) (JStr d) (JStr c) JUndefined JUndefined JUndefined uid) w
               = (inl k, w').
Proof.
  intros Ht Hd Hc Hu.
  assert (Hc' : String.eqb c "" = false)
    by (destruct (String.eqb_spec c "") as [->|]; [discriminate Hc | reflexivity]).
  apply String.eqb_neq in Ht, Hd.
  unfold Kick_create, bind, fresh_oid, get_world, log_op, set_kicks, ret.
  unfold title_error, description_error, category_error, status_error, path_error.
  cbn -[in_enum String.eqb cast_oid].
  rewrite Ht, Hd, Hc', Hc, (cast_oid_hex24 _ Hu). cbn. eauto.
Qed.

(** C5 (as stated, refuted): the body [{title: "Learn Rock Climbing",
    category: "Adventure"}] is refused with 400: the schema requires a
    description and its categories do not include "Adventure". *)
Lemma C5_rock_climbing_rejected :
  fst (post_kick no_dates alice rock_climbing_body world0)
  = inl (mkResponse 400 (BError "Validation failed: Path `description` is required.. `Adventure` is not a valid enum value for path `category`.")).
Proof. vm_compute. reflexivity. Qed.

(** C5 (amended): POST /kicks by a caller with a well-formed identifier,
    with a non-empty title and description, a category of the schema's
    enumeration and no status, succeeds, and GET /kicks/:id with the
    returned id answers that kick, whose status is "Open" and whose
    comment list is empty; the body {title: "Learn Rock Climbing",
    category: "Adventure"} is refused with 400. *)
Lemma C5_create_then_get (parse_date : string -> option Z) (user : identity)
    (t d c : string) (a : jsval) (w : world) :
  t <> "" -> d <> "" -> in_enum category_enum c = true -> is_hex24 (id_id user) = true ->
  (exists k w1,
     post_kick parse_date user
       (mkKickBody (JStr t) (JStr d) (JStr c) JUndefined JUndefined JUndefined a) w
     = (inl (mkResponse 201 (BKick k)), w1) /\
     (exists w2, get_kick (k_id k) w1 = (inl (mkResponse 200 (BKick k)), w2)) /\
     status k = "Open" /\ comments k = []) /\
  fst (post_kick parse_date user rock_climbing_body w)
  = inl (mkResponse 400 (BError "Validation failed: Path `description` is required.. `Adventure` is not a valid enum value for path `category`.")).
Proof.
  intros Ht Hd Hc Hu. split.
  - destruct (Kick_create_valid parse_date t d c (id_id user) w Ht Hd Hc Hu) as (k & w1 & E).
    pose proof (Kick_create_inl _ _ _ _ _ E) as (Hid & _ & Hcs & Hst & _ & _ & Hks).
    assert (Ht' : truthy (JStr t) = true)
      by (simpl; destruct (String.eqb_spec t ""); [contradiction | reflexivity]).
    assert (Hc' : truthy (JStr c) = true)
      by (simpl; destruct (String.eqb_spec c "") as [->|]; [discriminate Hc | reflexivity]).
    assert (Hd' : truthy (JStr d) = true)
      by (simpl; destruct (String.eqb_spec d ""); [contradiction | reflexivity]).
    exists k, w1. split; [|split; [|split; [now apply Hst | exact Hcs]]].
    + unfold post_kick, try_catch, bind, reply, ret. cbn [b_title b_category b_description
        b_location b_targetDate b_status]. rewrite Ht', Hc'. cbn [negb orb].
      unfold if_truthy. rewrite Hd'. cbn [truthy]. rewrite E. reflexivity.
    + eexists. unfold get_kick, try_catch, bind, Kick_findById, log_op, get_world, ret, reply.
      rewrite Hid, oid_of_hex24, (cast_oid_hex24 _ (oid_of_hex24 _)), lower_oid_of. cbn.
      rewrite Hks, Hid. now rewrite lookup_insert_eq.
  - unfold post_kick, try_catch, bind, reply, ret, Kick_create, fresh_oid, get_world, throw.
    cbn -[cast_oid]. rewrite (cast_oid_hex24 _ Hu). reflexivity.
Qed.

(* ------------------------------------------------------------------ *)
(** ** The status invariant is kept by every kick route *)

Section Preservation.
Variable parse_date : string -> option Z.













End Preservation.



(* ------------------------------------------------------------------ *)
(** ** Status values outside the enumeration are refused *)









(* ------------------------------------------------------------------ *)
(** ** C6: the status enumeration *)



(* ------------------------------------------------------------------ *)
(** ** C7: identifier shape checks *)

Lemma comments_id_not_hex24 (cs : list comment) (commentId : string) :
  is_hex24 commentId = false -> comments_id cs commentId = None.
Proof. intros H. unfold comments_id. now rewrite cast_oid_not_hex24. Qed.

Lemma kick_handler_bad_kick_id (parse_date : string -> option Z) (user : identity)
    (r : kick_request) (id : string) (w : world) :
  request_kickId r = Some id -> is_hex24 id = false ->
  kick_handler parse_date user r w
    = (inl (mkResponse 400 (BError "Invalid kick ID format.")), w).
Proof.
  intros Hr Hid. destruct r; cbn [request_kickId] in Hr; try discriminate Hr;
    injection Hr as <-; cbn [kick_handler];
    unfold get_kick, delete_kick, put_kick, post_comment, delete_comment, put_comment,
      patch_status, try_catch;
    rewrite Hid; reflexivity.
Qed.

Lemma comment_route_bad_comment_id (user : identity) (kickId commentId : string)
    (k : kick) (w : world) :
  is_hex24 kickId = true -> kicks w !! lower_ascii kickId = Some k ->
  is_hex24 commentId = false ->
  delete_comment user kickId commentId w
    = (inl (mkResponse 404 (BError "Comment not found. It may have already been deleted.")),
       after_find (lower_ascii kickId) w) /\
  (forall s, trim s <> "" ->
   put_comment user kickId commentId (JStr s) w
    = (inl (mkResponse 404 (BError "Comment not found. It may have been deleted.")),
       after_find (lower_ascii kickId) w)).
Proof.
  intros Hid Hk Hc. split.
  - unfold delete_comment, try_catch, bind, Kick_findById, log_op, get_world, ret, reply.
    rewrite Hid, (cast_oid_hex24 _ Hid). cbn -[comments_id]. rewrite Hk.
    rewrite (comments_id_not_hex24 _ _ Hc). reflexivity.
  - intros s Hs.
    assert (Hne : String.eqb s "" = false).
    { destruct s; [contradiction Hs; reflexivity | reflexivity]. }
    assert (Ht : String.eqb (trim s) "" = false) by now apply String.eqb_neq.
    unfold put_comment, with_text, try_catch, bind, Kick_findById, log_op, get_world,
      ret, reply.
    rewrite Hid. cbn [negb truthy]. rewrite Hne, Ht, (cast_oid_hex24 _ Hid).
    cbn -[comments_id]. rewrite Hk.
    rewrite (comments_id_not_hex24 _ _ Hc). reflexivity.
Qed.

(** C7 (as stated, refuted): the comment identifier is never checked for
    shape. Deleting comment "xyz" of an existing kick is answered 404, and
    only after the kick has been looked up in the store. *)
Lemma C7_malformed_comment_id_reaches_store :
  delete_comment alice (oid_of 0) "xyz" world0
  = (inl (mkResponse 404 (BError "Comment not found. It may have already been deleted.")),
     mkWorld (kicks world0) (users world0) (next_oid world0) [OpFindKick (oid_of 0)]).
Proof. vm_compute. reflexivity. Qed.

(** C7 (amended): for every kick route that takes a kick identifier, an
    admitted request whose kick identifier is not 24 hexadecimal digits is
    answered 400 "Invalid kick ID format." with the world (stored kicks,
    accounts and store log) unchanged. The comment identifier is not
    checked for shape: when the kick exists, a DELETE, or a PUT with a
    non-blank text, naming a malformed comment identifier looks the kick up
    and is answered 404 (comment not found). *)
Lemma C7_kick_id_checked_before_store :
  (forall parse_date user r id w,
     request_kickId r = Some id -> is_hex24 id = false ->
     kick_handler parse_date user r w
       = (inl (mkResponse 400 (BError "Invalid kick ID format.")), w)) /\
  (forall user kickId commentId k w,
     is_hex24 kickId = true -> kicks w !! lower_ascii kickId = Some k ->
     is_hex24 commentId = false ->
     delete_comment user kickId commentId w
       = (inl (mkResponse 404 (BError "Comment not found. It may have already been deleted.")),
          after_find (lower_ascii kickId) w) /\
     (forall s, trim s <> "" ->
      put_comment user kickId commentId (JStr s) w
       = (inl (mkResponse 404 (BError "Comment not found. It may have been deleted.")),
          after_find (lower_ascii kickId) w))).
Proof.
  split; [exact kick_handler_bad_kick_id | exact comment_route_bad_comment_id].
Qed.

(* ------------------------------------------------------------------ *)
(** ** Sign-in failures *)

Lemma signin_presence (compareSync : string -> string -> bool)
    (jwt_sign : identity -> string) (b : auth_body) (w : world) :
  truthy (a_username b) = false \/ truthy (a_password b) = false ->
  signin compareSync jwt_sign b w
    = (inl (mkResponse 400 (BErr "Please provide both username and password to sign in.")), w).
Proof.
  intros [H|H]; unfold signin, try_catch; rewrite H; cbn [negb orb];
    [reflexivity | now rewrite orb_true_r].
Qed.

Lemma signin_unregistered (compareSync : string -> string -> bool)
    (jwt_sign : identity -> string) (h : string) (p : jsval) (w : world) :
  h <> "" -> truthy p = true ->
  find (fun x => String.eqb (username x) h) (users w) = None ->
  fst (signin compareSync jwt_sign (signin_body (JStr h) p) w)
    = inl (mkResponse 401 (BErr invalid_credentials)).
Proof.
  intros Hh Hp Hf.
  unfold signin, signin_body, try_catch, bind, User_findOne, log_op, get_world, ret, reply.
  cbn [a_username a_password truthy cast_string]. rewrite Hp.
  rewrite (proj2 (String.eqb_neq h "") Hh). cbn. now rewrite Hf.
Qed.

Lemma signin_registered (compareSync : string -> string -> bool)
    (jwt_sign : identity -> string) (h : string) (u : user) (p : jsval) (w : world) :
  h <> "" -> truthy p = true ->
  find (fun x => String.eqb (username x) h) (users w) = Some u ->
  fst (signin compareSync jwt_sign (signin_body (JStr h) p) w)
    = match p with
      | JStr s => if compareSync s (hashedPassword u)
                  then inl (mkResponse 200 (BToken (jwt_sign (mkIdentity (username u) (u_id u)))
                                              (u_id u) (username u) (name u) (email u)))
                  else inl (mkResponse 401 (BErr invalid_credentials))
      | _ => inl (mkResponse 500 (BErr "An error occurred during sign in. Please try again."))
      end.
Proof.
  intros Hh Hp Hf.
  unfold signin, signin_body, try_catch, bind, User_findOne, log_op, get_world, ret, reply.
  cbn [a_username a_password truthy cast_string]. rewrite Hp.
  rewrite (proj2 (String.eqb_neq h "") Hh). cbn -[bcrypt_compare token_reply].
  rewrite Hf. unfold bcrypt_compare, throw.
  destruct p; try reflexivity. unfold ret.
  destruct (compareSync s (hashedPassword u)); reflexivity.
Qed.

(* ------------------------------------------------------------------ *)
(** ** Sign-up with a taken handle *)

Lemma find_existsb {A} (f : A -> bool) (l : list A) :
  existsb f l = true -> exists x, find f l = Some x.
Proof.
  induction l as [|a l IH]; cbn; [discriminate|].
  destruct (f a); [eauto | exact IH].
Qed.

Lemma signup_taken_handle (hashSync : string -> string) (jwt_sign : identity -> string)
    (b : auth_body) (h : string) (w : world) :
  a_username b = JStr h ->
  existsb (fun x => String.eqb (username x) h) (users w) = true ->
  exists r w', signup hashSync jwt_sign b w = (inl r, w') /\ users w' = users w
               /\ is_token (rbody r) = false
               /\ code r = (if truthy (a_username b) && truthy (a_password b)
                               && truthy (a_name b) && truthy (a_email b)
                            then 409 else 400)%Z.
Proof.
  intros Hu Hex. destruct (find_existsb _ _ Hex) as [x Hf].
  unfold signup, try_catch, bind, User_findOne, log_op, get_world, ret, reply.
  destruct (truthy (a_username b)), (truthy (a_password b)), (truthy (a_name b)),
    (truthy (a_email b)); cbn [negb orb andb];
    try (eexists _, _; split; [reflexivity | repeat split]; reflexivity).
  rewrite Hu. cbn -[bcrypt_hash User_create token_reply]. rewrite Hf.
  eexists _, _; split; [reflexivity | repeat split].
Qed.

(* ------------------------------------------------------------------ *)
(** ** C8: a wrong password and an unknown handle *)

(** C8 (code bug): with Alice registered, a password sent as the number 5
    makes [bcrypt.compareSync] throw on her stored hash and the catch
    answers 500, while the same password for the unknown handle "bob" is
    answered 401 invalid credentials: the response reveals that the account
    exists. *)
Lemma C8_non_string_password_reveals_account :
  fst (signin compare0 sign0 (signin_body (JStr "alice") (JNum 5)) accounts0)
    = inl (mkResponse 500 (BErr "An error occurred during sign in. Please try again."))
  /\ fst (signin compare0 sign0 (signin_body (JStr "bob") (JNum 5)) accounts0)
    = inl (mkResponse 401 (BErr invalid_credentials)).
Proof. vm_compute. repeat split. Qed.

(** For a registered handle [h], an unregistered non-empty handle [h'] and
    a password [p] that does not match the stored hash, sign-in with
    [(h, p)] and with [(h', p)] give the same response when [p] is a string
    (401 invalid credentials when it is non-empty) or is falsy (400). *)
Lemma signin_wrong_password_like_unknown_handle (compareSync : string -> string -> bool)
    (jwt_sign : identity -> string) (w : world) (h h' : string) (u : user) (p : jsval) :
  h <> "" -> h' <> "" ->
  find (fun x => String.eqb (username x) h) (users w) = Some u ->
  find (fun x => String.eqb (username x) h') (users w) = None ->
  (forall s, p = JStr s -> compareSync s (hashedPassword u) = false) ->
  (forall s, p = JStr s ->
     fst (signin compareSync jwt_sign (signin_body (JStr h) p) w)
       = fst (signin compareSync jwt_sign (signin_body (JStr h') p) w)
     /\ (s <> "" -> fst (signin compareSync jwt_sign (signin_body (JStr h') p) w)
                     = inl (mkResponse 401 (BErr invalid_credentials)))) /\
  (truthy p = false ->
     fst (signin compareSync jwt_sign (signin_body (JStr h) p) w)
       = fst (signin compareSync jwt_sign (signin_body (JStr h') p) w)
     /\ fst (signin compareSync jwt_sign (signin_body (JStr h') p) w)
       = inl (mkResponse 400 (BErr "Please provide both username and password to sign in."))).
Proof.
  intros Hh Hh' Hf Hf' Hc. split.
  - intros s ->. destruct (String.eqb s "") eqn:Es.
    + apply String.eqb_eq in Es. subst s.
      rewrite !signin_presence by (right; reflexivity).
      split; [reflexivity | intros []; reflexivity].
    + assert (Ht : truthy (JStr s) = true) by (cbn; now rewrite Es).
      rewrite (signin_registered _ _ _ _ _ _ Hh Ht Hf),
        (signin_unregistered _ _ _ _ _ Hh' Ht Hf').
      rewrite (Hc s eq_refl). split; reflexivity.
  - intros Hp. rewrite !signin_presence by (right; exact Hp). split; reflexivity.
Qed.

(* ------------------------------------------------------------------ *)
(** ** C9: sign-up with a taken handle *)

(** C9 (as stated, refuted): "alice" is taken, but a sign-up with that
    handle and an empty password is answered 400 (missing fields), not
    409. *)
Lemma C9_taken_handle_missing_password :
  fst (signup hash0 sign0
         (mkAuthBody (JStr "alice") (JStr "") (JStr "Alice B") (JStr "ab@example.com"))
         accounts0)
  = inl (mkResponse 400 (BErr "Missing required fields: password. Please fill in all required information.")).
Proof. vm_compute. reflexivity. Qed.

(** C9 (amended): a sign-up whose handle is a string equal to the handle
    of a stored account is answered 409 when the handle, password, name and
    email are all truthy and 400 (missing fields) otherwise; in both cases
    no account is added and no token is issued. *)
Lemma C9_taken_handle_rejected (hashSync : string -> string)
    (jwt_sign : identity -> string) (b : auth_body) (h : string) (w : world) :
  a_username b = JStr h ->
  existsb (fun x => String.eqb (username x) h) (users w) = true ->
  exists r w', signup hashSync jwt_sign b w = (inl r, w') /\ users w' = users w
               /\ is_token (rbody r) = false
               /\ code r = (if truthy (a_username b) && truthy (a_password b)
                               && truthy (a_name b) && truthy (a_email b)
                            then 409 else 400)%Z.
Proof. exact (signup_taken_handle hashSync jwt_sign b h w). Qed.

(* ------------------------------------------------------------------ *)
(** ** C10: falsy sign-in fields *)

(** C10: a sign-in whose username or password is falsy (the empty string
    included) is answered 400 with the missing-fields error, and the world
    is left as it was: no account lookup and no password comparison. *)
Lemma C10_signin_falsy_field_400 (compareSync : string -> string -> bool)
    (jwt_sign : identity -> string) (v1 v2 n e : jsval) (w : world) :
  truthy v1 = false \/ truthy v2 = false ->
  signin compareSync jwt_sign (mkAuthBody v1 v2 n e) w
    = (inl (mkResponse 400 (BErr "Please provide both username and password to sign in.")), w).
Proof. intros H. exact (signin_presence compareSync jwt_sign (mkAuthBody v1 v2 n e) w H). Qed.

(* ------------------------------------------------------------------ *)
(** ** Instances of the properties on the concrete worlds *)

Lemma C1_witness :
  is_hex24 (oid_of 0) = true /\ kicks world0 !! lower_ascii (oid_of 0) = Some kick0
  /\ cast_oid (id_id bob) <> Some (author kick0)
  /\ (exists w', delete_kick bob (oid_of 0) world0
        = (inl (mkResponse 403 (BError "You do not have permission to delete this kick.")), w')
        /\ kicks w' = kicks world0).
Proof.
  assert (H1 : is_hex24 (oid_of 0) = true) by (vm_compute; reflexivity).
  assert (H2 : kicks world0 !! lower_ascii (oid_of 0) = Some kick0) by (vm_compute; reflexivity).
  assert (H3 : cast_oid (id_id bob) <> Some (author kick0)) by (vm_compute; congruence).
  exact (conj H1 (conj H2 (conj H3
    (proj1 (C1_non_owner_put_delete_rejected no_dates bob (oid_of 0) kick0 world0 H1 H2 H3))))).
Defined.

Lemma C2_witness :
  exists r w', post_kick no_dates alice sports_body world0 = (inl r, w') /\ code r = 201%Z
  /\ exists k, rbody r = BKick k /\ cast_oid (id_id alice) = Some (author k)
               /\ kicks w' !! k_id k = Some k.
Proof.
  destruct (post_kick no_dates alice sports_body world0) as [[r|e] w'] eqn:E.
  - assert (Hc : code r = 201%Z).
    { vm_compute in E. injection E as <- _. reflexivity. }
    exists r, w'. split; [reflexivity|]. split; [exact Hc|].
    exact (proj1 (C2_post_kick_author_is_caller no_dates alice sports_body world0 r w' E Hc)).
  - vm_compute in E. discriminate E.
Defined.

Lemma C3_witness :
  is_hex24 (oid_of 0) = true /\ kicks world0 !! lower_ascii (oid_of 0) = Some kick0
  /\ comments_id (comments kick0) (oid_of 1) = Some (mkComment (oid_of 1) "Count me in" bob_id)
  /\ cast_oid (id_id alice) <> Some bob_id
  /\ (exists w', delete_comment alice (oid_of 0) (oid_of 1) world0
        = (inl (mkResponse 403 (BError "You can only delete your own comments.")), w')
        /\ kicks w' = kicks world0).
Proof.
  assert (H1 : is_hex24 (oid_of 0) = true) by (vm_compute; reflexivity).
  assert (H2 : kicks world0 !! lower_ascii (oid_of 0) = Some kick0) by (vm_compute; reflexivity).
  assert (H3 : comments_id (comments kick0) (oid_of 1)
               = Some (mkComment (oid_of 1) "Count me in" bob_id)) by (vm_compute; reflexivity).
  assert (H4 : cast_oid (id_id alice) <> Some bob_id) by (vm_compute; congruence).
  exact (conj H1 (conj H2 (conj H3 (conj H4
    (proj1 (C3_non_author_comment_change_rejected alice (oid_of 0) (oid_of 1) kick0
              (mkComment (oid_of 1) "Count me in" bob_id) world0 H1 H2 H3 H4)))))).
Defined.

Lemma C4_witness :
  (@None string = None \/ @None string = Some "") /\
  verifyToken verify_abc None
  = Reject (mkResponse 401 (BErr "No authentication token provided. Please sign in.")).
Proof.
  assert (H : @None string = None \/ @None string = Some "") by (left; reflexivity).
  exact (conj H (proj1 (proj2 (C4_gate_behaviour verify_abc None)) H)).
Defined.

Lemma C5_witness :
  "Learn Rock Climbing" <> "" /\ "Indoor wall first" <> ""
  /\ in_enum category_enum "Sports" = true /\ is_hex24 (id_id alice) = true
  /\ exists k w1,
       post_kick no_dates alice sports_body world0 = (inl (mkResponse 201 (BKick k)), w1)
       /\ status k = "Open".
Proof.
  assert (H1 : "Learn Rock Climbing" <> "") by discriminate.
  assert (H2 : "Indoor wall first" <> "") by discriminate.
  assert (H3 : in_enum category_enum "Sports" = true) by (vm_compute; reflexivity).
  assert (H4 : is_hex24 (id_id alice) = true) by (vm_compute; reflexivity).
  destruct (proj1 (C5_create_then_get no_dates alice "Learn Rock Climbing" "Indoor wall first"
                     "Sports" JUndefined world0 H1 H2 H3 H4)) as (k & w1 & E & _ & Hs & _).
  exact (conj H1 (conj H2 (conj H3 (conj H4 (ex_intro _ k (ex_intro _ w1 (conj E Hs))))))).
Defined.


Lemma C7_witness :
  request_kickId (GetKick "xyz") = Some "xyz" /\ is_hex24 "xyz" = false
  /\ kick_handler no_dates alice (GetKick "xyz") world0
     = (inl (mkResponse 400 (BError "Invalid kick ID format.")), world0).
Proof.
  assert (H1 : request_kickId (GetKick "xyz") = Some "xyz") by reflexivity.
  assert (H2 : is_hex24 "xyz" = false) by (vm_compute; reflexivity).
  exact (conj H1 (conj H2
    (proj1 C7_kick_id_checked_before_store no_dates alice (GetKick "xyz") "xyz" world0 H1 H2))).
Defined.

Lemma signin_wrong_password_like_unknown_handle_witness :
  "alice" <> "" /\ "bob" <> ""
  /\ find (fun x => String.eqb (username x) "alice") (users accounts0) = Some alice_account
  /\ find (fun x => String.eqb (username x) "bob") (users accounts0) = None
  /\ fst (signin compare0 sign0 (signin_body (JStr "alice") (JStr "wrong")) accounts0)
     = fst (signin compare0 sign0 (signin_body (JStr "bob") (JStr "wrong")) accounts0).
Proof.
  assert (H1 : "alice" <> "") by discriminate.
  assert (H2 : "bob" <> "") by discriminate.
  assert (H3 : find (fun x => String.eqb (username x) "alice") (users accounts0)
               = Some alice_account) by (vm_compute; reflexivity).
  assert (H4 : find (fun x => String.eqb (username x) "bob") (users accounts0) = None)
    by (vm_compute; reflexivity).
  assert (H5 : forall s, JStr "wrong" = JStr s -> compare0 s (hashedPassword alice_account) = false)
    by (intros s Hs; injection Hs as <-; vm_compute; reflexivity).
  exact (conj H1 (conj H2 (conj H3 (conj H4
    (proj1 (proj1 (signin_wrong_password_like_unknown_handle compare0 sign0 accounts0 "alice" "bob"
                     alice_account (JStr "wrong") H1 H2 H3 H4 H5) "wrong" eq_refl)))))).
Defined.

Lemma C9_witness :
  a_username (mkAuthBody (JStr "alice") (JStr "pw") (JStr "A") (JStr "a@example.com")) = JStr "alice"
  /\ existsb (fun x => String.eqb (username x) "alice") (users accounts0) = true
  /\ exists r w', signup hash0 sign0
                    (mkAuthBody (JStr "alice") (JStr "pw") (JStr "A") (JStr "a@example.com"))
                    accounts0 = (inl r, w')
                  /\ users w' = users accounts0 /\ is_token (rbody r) = false
                  /\ code r = 409%Z.
Proof.
  assert (H1 : a_username (mkAuthBody (JStr "alice") (JStr "pw") (JStr "A") (JStr "a@example.com"))
               = JStr "alice") by reflexivity.
  assert (H2 : existsb (fun x => String.eqb (username x) "alice") (users accounts0) = true)
    by (vm_compute; reflexivity).
  exact (conj H1 (conj H2
    (C9_taken_handle_rejected hash0 sign0
       (mkAuthBody (JStr "alice") (JStr "pw") (JStr "A") (JStr "a@example.com"))
       "alice" accounts0 H1 H2))).
Defined.

Lemma C10_witness :
  (truthy (JStr "alice") = false \/ truthy (JStr "") = false) /\
  signin compare0 sign0 (mkAuthBody (JStr "alice") (JStr "") JUndefined JUndefined) accounts0
  = (inl (mkResponse 400 (BErr "Please provide both username and password to sign in.")),
     accounts0).
Proof.
  assert (H : truthy (JStr "alice") = false \/ truthy (JStr "") = false)
    by (right; reflexivity).
  exact (conj H (C10_signin_falsy_field_400 compare0 sign0 (JStr "alice") (JStr "")
                   JUndefined JUndefined accounts0 H)).
Defined.

(* ------------------------------------------------------------------ *)
(** ** Relations kept by whole handlers *)

Section Keeps.
Variable R : world -> world -> Prop.
Hypothesis R_refl : forall w, R w w.
Hypothesis R_trans : forall w1 w2 w3, R w1 w2 -> R w2 w3 -> R w1 w3.

Lemma keep_ret {A} (a : A) : keeps R (ret a).
Proof. intros w. apply R_refl. Qed.

Lemma keep_throw {A} (e : exn) : keeps R (A := A) (throw e).
Proof. intros w. apply R_refl. Qed.

Lemma keep_get_world : keeps R get_world.
Proof. intros w. apply R_refl. Qed.

Lemma keep_bind {A B} (m : M A) (f : A -> M B) :
  keeps R m -> (forall a, keeps R (f a)) -> keeps R (bind m f).
Proof.
  intros Hm Hf w. unfold bind. specialize (Hm w).
  destruct (m w) as [[a|e] w'] eqn:E; simpl in Hm; [|exact Hm].
  exact (R_trans _ _ _ Hm (Hf a w')).
Qed.

Lemma keep_try_catch {A} (m : M A) (h : exn -> M A) :
  keeps R m -> (forall e, keeps R (h e)) -> keeps R (try_catch m h).
Proof.
  intros Hm Hh w. unfold try_catch. specialize (Hm w).
  destruct (m w) as [[a|e] w'] eqn:E; simpl in Hm; [exact Hm|].
  exact (R_trans _ _ _ Hm (Hh e w')).
Qed.
End Keeps.

Lemma same_users_refl (w : world) : same_users w w.
Proof. reflexivity. Qed.
Lemma same_users_trans (w1 w2 w3 : world) :
  same_users w1 w2 -> same_users w2 w3 -> same_users w1 w3.
Proof. unfold same_users. congruence. Qed.
Lemma same_kicks_refl (w : world) : same_kicks w w.
Proof. reflexivity. Qed.
Lemma same_kicks_trans (w1 w2 w3 : world) :
  same_kicks w1 w2 -> same_kicks w2 w3 -> same_kicks w1 w3.
Proof. unfold same_kicks. congruence. Qed.
Lemma same_shape_refl (w : world) : same_shape w w.
Proof. intros id. destruct (kicks w !! id); auto. Qed.
Lemma same_shape_trans (w1 w2 w3 : world) :
  same_shape w1 w2 -> same_shape w2 w3 -> same_shape w1 w3.
Proof.
  intros H12 H23 id. specialize (H12 id). specialize (H23 id).
  destruct (kicks w1 !! id), (kicks w2 !! id), (kicks w3 !! id); intuition congruence.
Qed.

(** The primitive steps. *)
Lemma users_log_op (op : store_op) : keeps same_users (log_op op).
Proof. intros w. reflexivity. Qed.
Lemma users_fresh_oid : keeps same_users fresh_oid.
Proof. intros w. reflexivity. Qed.
Lemma users_set_kicks (ks : gmap string kick) : keeps same_users (set_kicks ks).
Proof. intros w. reflexivity. Qed.
Lemma kicks_log_op (op : store_op) : keeps same_kicks (log_op op).
Proof. intros w. reflexivity. Qed.
Lemma kicks_fresh_oid : keeps same_kicks fresh_oid.
Proof. intros w. reflexivity. Qed.
Lemma kicks_set_users (us : list user) : keeps same_kicks (set_users us).
Proof. intros w. reflexivity. Qed.
Lemma shape_log_op (op : store_op) : keeps same_shape (log_op op).
Proof. intros w id. cbn [snd log_op fresh_oid kicks]. destruct (kicks w !! id); auto. Qed.
Lemma shape_fresh_oid : keeps same_shape fresh_oid.
Proof. intros w id. cbn [snd log_op fresh_oid kicks]. destruct (kicks w !! id); auto. Qed.

(** [Kick.findByIdAndUpdate] writes the updated kick back under its key,
    keeping its id, author, comments and creation stamp. *)
Lemma update_writes_back (parse_date : string -> option Z) (id : string)
    (u : kick_update) (w : world) :
  (kicks (snd (Kick_findByIdAndUpdate parse_date id u w)) = kicks w) \/
  (exists oid k k', kicks w !! oid = Some k
     /\ kicks (snd (Kick_findByIdAndUpdate parse_date id u w)) = <[oid := k']> (kicks w)
     /\ k_id k' = k_id k /\ author k' = author k /\ comments k' = comments k
     /\ createdAt k' = createdAt k).
Proof.
  unfold Kick_findByIdAndUpdate, bind, log_op, get_world, set_kicks, ret, throw.
  destruct (cast_oid id) as [oid|]; [|now left].
  destruct (if is_undefined (ku_targetDate u) then DateOk None
            else cast_date parse_date (ku_targetDate u)) as [td|]; [|now left].
  destruct (somes _) as [|m ms]; [|now left]. simpl.
  destruct (kicks w !! oid) as [k|] eqn:Ek; [|now left]. right.
  simpl. eexists _, _, _. split; [exact Ek|]. split; [reflexivity|]. simpl. auto.
Qed.

Lemma shape_update (parse_date : string -> option Z) (id : string) (u : kick_update) :
  keeps same_shape (Kick_findByIdAndUpdate parse_date id u).
Proof.
  intros w. destruct (update_writes_back parse_date id u w)
    as [E | (oid & k & k' & Ek & E & Hid & Ha & Hc & Ht)].
  - intros i. rewrite E. destruct (kicks w !! i); auto.
  - intros i. rewrite E. destruct (decide (i = oid)) as [->|Hne].
    + rewrite Ek, lookup_insert_eq. auto.
    + rewrite lookup_insert_ne by congruence. destruct (kicks w !! i); auto.
Qed.

Lemma shape_findById (id : string) : keeps same_shape (Kick_findById id).
Proof.
  intros w. unfold Kick_findById, bind, log_op, get_world, ret, throw.
  destruct (cast_oid id); intros i; cbn; destruct (kicks w !! i); auto.
Qed.

Create HintDb keeps.
#[export] Hint Resolve users_log_op users_fresh_oid users_set_kicks kicks_log_op
  kicks_fresh_oid kicks_set_users shape_log_op shape_fresh_oid
  shape_update shape_findById : keeps.

Ltac keep_rel :=
  first [ exact same_users_refl | exact same_users_trans | exact same_kicks_refl
        | exact same_kicks_trans
        | exact same_shape_refl | exact same_shape_trans ].

Ltac keep_step :=
  match goal with
  | |- keeps _ (try_catch _ _) => apply keep_try_catch; [keep_rel | | intros]
  | |- keeps _ (bind _ _) => apply keep_bind; [keep_rel | | intros]
  | |- keeps _ (ret _) => apply keep_ret; keep_rel
  | |- keeps _ (reply _ _) => apply keep_ret; keep_rel
  | |- keeps _ invalid_id => apply keep_ret; keep_rel
  | |- keeps _ (throw _) => apply keep_throw; keep_rel
  | |- keeps _ get_world => apply keep_get_world; keep_rel
  | |- keeps _ _ => solve [auto with keeps]
  | |- keeps _ (Kick_create _ _) => unfold Kick_create
  | |- keeps _ (Kick_findById _) => unfold Kick_findById
  | |- keeps _ (Kick_find_by_author _) => unfold Kick_find_by_author
  | |- keeps _ (Kick_findByIdAndDelete _) => unfold Kick_findByIdAndDelete
  | |- keeps _ (Kick_save _) => unfold Kick_save
  | |- keeps _ (Kick_findByIdAndUpdate _ _ _) => unfold Kick_findByIdAndUpdate
  | |- keeps _ (User_findOne _) => unfold User_findOne
  | |- keeps _ (User_create _ _ _ _) => unfold User_create
  | |- keeps _ (bcrypt_hash _ _) => unfold bcrypt_hash
  | |- keeps _ (bcrypt_compare _ _ _) => unfold bcrypt_compare
  | |- keeps _ (token_reply _ _ _) => unfold token_reply
  | |- keeps _ (with_text _ _ _) => unfold with_text
  | |- keeps _ (let _ := _ in _) => cbv zeta
  | |- keeps _ _ => cbv beta; case_match
  end.

Ltac unfold_kick_routes :=
  unfold post_kick, list_kicks, get_kick, delete_kick, put_kick, post_comment,
    delete_comment, put_comment, patch_status.

(* ------------------------------------------------------------------ *)
(** ** Invariants of the routes *)

(** No kick route reads or writes the account collection's contents. *)
Lemma kick_routes_keep_accounts (parse_date : string -> option Z) (user : identity)
    (r : kick_request) (w : world) :
  users (snd (kick_handler parse_date user r w)) = users w.
Proof.
  revert w. change (keeps same_users (kick_handler parse_date user r)).
  destruct r; cbn [kick_handler]; unfold_kick_routes; repeat keep_step.
Qed.

(** Sign-up and sign-in never change the stored kicks, and sign-in never
    changes the accounts. *)
Lemma account_routes_keep_kicks (hashSync : string -> string)
    (compareSync : string -> string -> bool) (jwt_sign : identity -> string)
    (b : auth_body) (w : world) :
  kicks (snd (signup hashSync jwt_sign b w)) = kicks w
  /\ kicks (snd (signin compareSync jwt_sign b w)) = kicks w
  /\ users (snd (signin compareSync jwt_sign b w)) = users w.
Proof.
  split; [|split]; revert w.
  - change (keeps same_kicks (signup hashSync jwt_sign b)).
    unfold signup. repeat keep_step.
  - change (keeps same_kicks (signin compareSync jwt_sign b)).
    unfold signin. repeat keep_step.
  - change (keeps same_users (signin compareSync jwt_sign b)).
    unfold signin. repeat keep_step.
Qed.

(** PUT /kicks/:kickId, whatever its outcome, neither adds nor removes a
    kick and never changes a kick's id, author, comments or creation
    stamp. *)
Lemma put_kick_keeps_shape (parse_date : string -> option Z) (user : identity)
    (kickId : string) (b : kick_body) (w : world) :
  same_shape w (snd (put_kick parse_date user kickId b w)).
Proof.
  revert w. change (keeps same_shape (put_kick parse_date user kickId b)).
  unfold put_kick. repeat keep_step.
Qed.

(* ------------------------------------------------------------------ *)
(** ** GET /kicks *)

Lemma insert_by_created_In (k : kick) (l : list kick) (x : kick) :
  In x (insert_by_created k l) <-> k = x \/ In x l.
Proof.
  induction l as [|k' l IH]; simpl; [tauto|].
  destruct (createdAt k' <=? createdAt k)%N; simpl; [tauto|]. rewrite IH. tauto.
Qed.

Lemma sort_created_desc_In (l : list kick) (x : kick) :
  In x (sort_created_desc l) <-> In x l.
Proof.
  unfold sort_created_desc. induction l as [|k l IH]; simpl; [tauto|].
  rewrite insert_by_created_In, IH. tauto.
Qed.

Lemma insert_by_created_HdRel (k' k : kick) (l : list kick) :
  HdRel created_desc k' l -> created_desc k' k ->
  HdRel created_desc k' (insert_by_created k l).
Proof.
  destruct l as [|k'' l]; simpl; intros H1 H2; [constructor; exact H2|].
  destruct (createdAt k'' <=? createdAt k)%N; constructor; [exact H2|].
  inversion H1; assumption.
Qed.

Lemma insert_by_created_sorted (k : kick) (l : list kick) :
  Sorted created_desc l -> Sorted created_desc (insert_by_created k l).
Proof.
  induction l as [|k' l IH]; simpl; intros H; [repeat constructor|].
  destruct (createdAt k' <=? createdAt k)%N eqn:E.
  - constructor; [exact H|]. constructor. unfold created_desc. now apply N.leb_le.
  - inversion H as [|? ? Hs Hh]; subst. constructor; [exact (IH Hs)|].
    apply insert_by_created_HdRel; [exact Hh|].
    unfold created_desc. apply N.leb_gt in E. lia.
Qed.

Lemma sort_created_desc_sorted (l : list kick) : Sorted created_desc (sort_created_desc l).
Proof.
  unfold sort_created_desc. induction l as [|k l IH]; simpl; [constructor|].
  now apply insert_by_created_sorted.
Qed.

(** GET /kicks answers 200 with exactly the stored kicks whose author is
    the caller, newest first, and changes no kick. *)
Lemma list_kicks_own_newest_first (user : identity) (w : world) :
  is_hex24 (id_id user) = true ->
  exists ks,
    fst (list_kicks user w) = inl (mkResponse 200 (BKicks ks))
    /\ kicks (snd (list_kicks user w)) = kicks w
    /\ (forall k, In k ks <->
          (exists id, kicks w !! id = Some k) /\ author k = lower_ascii (id_id user))
    /\ Sorted created_desc ks.
Proof.
  intros Hu.
  unfold list_kicks, try_catch, bind, Kick_find_by_author, log_op, get_world, ret, reply.
  rewrite (cast_oid_hex24 _ Hu). cbn [fst snd kicks].
  eexists. split; [reflexivity|]. split; [reflexivity|]. split.
  - intros k. rewrite sort_created_desc_In, <- list_elem_of_In, list_elem_of_filter,
      list_elem_of_In, in_map_iff.
    split.
    + intros [Ha [[i x] [Hx Hin]]]. simpl in Hx. subst x.
      apply list_elem_of_In, elem_of_map_to_list in Hin.
      split; [eauto|]. apply Is_true_eq_true in Ha. now apply String.eqb_eq.
    + intros [[i Hi] Ha]. split; [apply Is_true_eq_left; now apply String.eqb_eq|].
      exists (i, k). split; [reflexivity|].
      apply list_elem_of_In, elem_of_map_to_list. exact Hi.
  - apply sort_created_desc_sorted.
Qed.

(* ------------------------------------------------------------------ *)
(** ** Whole-document validation on [save] *)

Lemma somes_app (l1 l2 : list (option string)) :
  somes (app l1 l2) = app (somes l1) (somes l2).
Proof. induction l1 as [|[m|] l1 IH]; simpl; [reflexivity | now rewrite IH | exact IH]. Qed.

Lemma somes_nil_iff (l : list (option string)) :
  somes l = [] <-> forall x, In x l -> x = None.
Proof.
  induction l as [|[m|] l IH]; simpl.
  - split; [tauto | reflexivity].
  - split; [discriminate | intros H; specialize (H (Some m) (or_introl eq_refl)); discriminate].
  - rewrite IH. split; [intros H x [<-|Hx]; auto | auto].
Qed.

Lemma text_error_none (t : string) : t <> "" -> path_error "text" true None (Some t) = None.
Proof. intros H. unfold path_error. simpl. now rewrite (proj2 (String.eqb_neq t "") H). Qed.

Lemma validate_kick_texts (k : kick) :
  validate_kick k = [] -> forall c, In c (comments k) -> c_text c <> "".
Proof.
  unfold validate_kick. rewrite somes_app. intros H c Hc Ht.
  apply app_eq_nil in H as [_ H]. rewrite somes_nil_iff in H.
  specialize (H _ (in_map _ _ _ Hc)). cbv beta in H. rewrite Ht in H. discriminate H.
Qed.

Lemma validate_kick_set_comments (k : kick) (cs : list comment) :
  validate_kick k = [] -> (forall c, In c cs -> c_text c <> "") ->
  validate_kick (set_comments k cs) = [].
Proof.
  unfold validate_kick. rewrite !somes_app. intros H Hcs.
  apply app_eq_nil in H as [H _]. cbn [set_comments title description category status comments].
  rewrite H. simpl. apply somes_nil_iff. intros x Hx.
  apply in_map_iff in Hx as (c & <- & Hc). exact (text_error_none _ (Hcs c Hc)).
Qed.

Lemma validate_kick_set_status (k : kick) (s : string) :
  validate_kick k = [] -> in_enum status_enum s = true ->
  validate_kick (set_status k s) = [].
Proof.
  unfold validate_kick. rewrite !somes_app. intros H Hs.
  apply app_eq_nil in H as [H1 H2].
  cbn [set_status title description category status comments]. rewrite H2, app_nil_r.
  apply somes_nil_cons in H1 as [Ht H1]. apply somes_nil_cons in H1 as [Hd H1].
  apply somes_nil_cons in H1 as [Hc _]. apply somes_nil_iff.
  intros x Hx. destruct Hx as [<-|[<-|[<-|[<-|[]]]]]; [exact Ht | exact Hd | exact Hc |].
  unfold status_error, path_error. simpl.
  destruct (String.eqb s "") eqn:E.
  - apply String.eqb_eq in E. subst s. discriminate Hs.
  - simpl. unfold in_enum in Hs. simpl in Hs. now rewrite Hs.
Qed.

Lemma comments_id_some (cs : list comment) (commentId : string) (c : comment) :
  comments_id cs commentId = Some c ->
  cast_oid commentId = Some (c_id c) /\ In c cs.
Proof.
  unfold comments_id. destruct (cast_oid commentId) as [x|]; [|discriminate].
  intros H. apply find_some in H as [Hin Hx]. apply String.eqb_eq in Hx. subst x. auto.
Qed.

Lemma trim_nonempty (s : string) : trim s <> "" -> String.eqb s "" = false.
Proof. intros H. destruct s; [contradiction H; reflexivity | reflexivity]. Qed.

(* ------------------------------------------------------------------ *)
(** ** Reading and deleting a kick *)

(** GET /kicks/:kickId with a well-formed id answers the stored kick
    (200) or 404, whoever the caller is (there is no ownership check),
    and changes no kick. *)
Lemma get_kick_any_caller (parse_date : string -> option Z) (user : identity)
    (kickId : string) (w : world) :
  is_hex24 kickId = true ->
  kick_handler parse_date user (GetKick kickId) w
  = (inl (match kicks w !! lower_ascii kickId with
          | Some k => mkResponse 200 (BKick k)
          | None => mkResponse 404 (BError "Kick not found. It may have been deleted.")
          end), after_find (lower_ascii kickId) w).
Proof.
  intros Hid. cbn [kick_handler].
  unfold get_kick, try_catch, bind, Kick_findById, log_op, get_world, ret, reply.
  rewrite Hid, (cast_oid_hex24 _ Hid). cbn. destruct (kicks w !! lower_ascii kickId); reflexivity.
Qed.

(** DELETE /kicks/:kickId by the kick's author answers 200 and removes
    exactly that kick; a later GET of the same id answers 404. *)
Lemma delete_kick_owner_removes (parse_date : string -> option Z) (user : identity)
    (kickId : string) (k : kick) (w : world) :
  is_hex24 kickId = true -> kicks w !! lower_ascii kickId = Some k ->
  cast_oid (id_id user) = Some (author k) ->
  exists w',
    kick_handler parse_date user (DeleteKick kickId) w
      = (inl (mkResponse 200 (BMessage "Kick deleted successfully")), w')
    /\ kicks w' = delete (lower_ascii kickId) (kicks w)
    /\ forall user', fst (kick_handler parse_date user' (GetKick kickId) w')
                     = inl (mkResponse 404 (BError "Kick not found. It may have been deleted.")).
Proof.
  intros Hid Hk Ho. eexists. split.
  { cbn [kick_handler].
    unfold delete_kick, try_catch, bind, Kick_findById, Kick_findByIdAndDelete, log_op,
      get_world, set_kicks, ret, reply.
    rewrite Hid, (cast_oid_hex24 _ Hid). cbn. rewrite Hk, (oid_equals_true _ _ Ho).
    reflexivity. }
  split; [reflexivity|].
  intros user'. rewrite get_kick_any_caller by exact Hid. cbn.
  now rewrite lookup_delete_eq.
Qed.

(* ------------------------------------------------------------------ *)
(** ** Status changes and comments on the success paths *)

(** PATCH /kicks/:kickId/status by the kick's author with a value of the
    status enumeration answers 200 and stores the kick with only its
    status changed, provided the stored kick itself passes validation. *)
Lemma patch_status_owner_sets (parse_date : string -> option Z) (user : identity)
    (kickId : string) (k : kick) (s : string) (w : world) :
  is_hex24 kickId = true -> kicks w !! lower_ascii kickId = Some k ->
  cast_oid (id_id user) = Some (author k) -> validate_kick k = [] ->
  in_enum status_enum s = true ->
  exists w',
    kick_handler parse_date user (PatchStatus kickId (JStr s)) w
      = (inl (mkResponse 200 (BKick (set_status k s))), w')
    /\ kicks w' = <[k_id k := set_status k s]> (kicks w).
Proof.
  intros Hid Hk Ho Hv Hs.
  assert (Hne : String.eqb s "" = false).
  { destruct (String.eqb s "") eqn:E; [|reflexivity].
    apply String.eqb_eq in E. subst s. discriminate Hs. }
  cbn [kick_handler].
  unfold patch_status, try_catch, bind, Kick_findById, Kick_save, log_op, get_world,
    set_kicks, ret, reply.
  rewrite Hid. cbn [negb truthy]. rewrite Hne, (cast_oid_hex24 _ Hid).
  cbn -[validate_kick set_status]. rewrite Hk, (oid_equals_true _ _ Ho).
  cbn -[validate_kick set_status]. rewrite (validate_kick_set_status k s Hv Hs).
  cbn -[set_status]. eexists. split; [reflexivity|]. reflexivity.
Qed.

(** POST /kicks/:kickId/comments with a non-blank text, by any caller
    (there is no ownership check), answers 201 with the trimmed text and
    the caller's id, and stores the kick with the new comment appended at
    the end of its comments: a fresh id, the trimmed text and the caller as
    author; provided the stored kick itself passes the schema's validation,
    since [kick.save()] validates the whole kick. *)
Lemma post_comment_appends (parse_date : string -> option Z) (user : identity)
    (kickId : string) (k : kick) (s : string) (w : world) :
  is_hex24 kickId = true -> kicks w !! lower_ascii kickId = Some k ->
  validate_kick k = [] -> is_hex24 (id_id user) = true -> trim s <> "" ->
  exists w',
    kick_handler parse_date user (PostComment kickId (JStr s)) w
      = (inl (mkResponse 201 (BNewComment (trim s) (id_id user))), w')
    /\ kicks w' = <[k_id k := set_comments k
                     (app (comments k)
                        [mkComment (oid_of (next_oid w)) (trim s) (lower_ascii (id_id user))])]>
                  (kicks w).
Proof.
  intros Hid Hk Hv Hu Ht.
  assert (Hv' : validate_kick (set_comments k (app (comments k)
                  [mkComment (oid_of (next_oid w)) (trim s) (lower_ascii (id_id user))])) = []).
  { apply validate_kick_set_comments; [exact Hv|].
    intros c Hc. apply in_app_or in Hc as [Hc|[<-|[]]].
    - exact (validate_kick_texts k Hv c Hc).
    - exact Ht. }
  cbn [kick_handler].
  unfold post_comment, with_text, try_catch, bind, Kick_findById, Kick_save, fresh_oid,
    log_op, get_world, set_kicks, ret, reply.
  rewrite Hid. cbn [negb truthy]. rewrite (trim_nonempty s Ht).
  rewrite (proj2 (String.eqb_neq _ _) Ht), (cast_oid_hex24 _ Hid).
  cbn -[validate_kick set_comments trim oid_of]. rewrite Hk, (cast_oid_hex24 _ Hu).
  cbn -[validate_kick set_comments trim oid_of]. rewrite Hv'.
  cbn -[set_comments trim oid_of]. eexists. split; reflexivity.
Qed.

(** DELETE /kicks/:kickId/comments/:commentId by the comment's author
    answers 200 and stores the kick with that comment, and only it,
    removed from its comments; provided the stored kick itself passes the
    schema's validation, since [kick.save()] validates the whole kick. *)
Lemma delete_comment_author_removes (parse_date : string -> option Z) (user : identity)
    (kickId commentId : string) (k : kick) (c : comment) (w : world) :
  is_hex24 kickId = true -> kicks w !! lower_ascii kickId = Some k ->
  comments_id (comments k) commentId = Some c ->
  cast_oid (id_id user) = Some (c_author c) -> validate_kick k = [] ->
  exists w' cs,
    kick_handler parse_date user (DeleteComment kickId commentId) w
      = (inl (mkResponse 200 (BMessage "Comment deleted successfully")), w')
    /\ kicks w' = <[k_id k := set_comments k cs]> (kicks w)
    /\ (forall c', In c' cs <-> In c' (comments k) /\ c_id c' <> c_id c).
Proof.
  intros Hid Hk Hc Ho Hv.
  destruct (comments_id_some _ _ _ Hc) as [Hcid _].
  assert (Hin : forall c', In c' (comments_pull (comments k) commentId)
                           <-> In c' (comments k) /\ c_id c' <> c_id c).
  { intros c'. unfold comments_pull. rewrite Hcid, <- list_elem_of_In, list_elem_of_filter,
      list_elem_of_In.
    split.
    - intros [Hne Hc']. split; [exact Hc'|]. intros E. rewrite E, String.eqb_refl in Hne.
      exact Hne.
    - intros [Hc' Hne]. split; [|exact Hc']. apply Is_true_eq_left.
      now rewrite (proj2 (String.eqb_neq _ _) Hne). }
  assert (Hv' : validate_kick (set_comments k (comments_pull (comments k) commentId)) = []).
  { apply validate_kick_set_comments; [exact Hv|].
    intros c' Hc'. apply Hin in Hc' as [Hc' _]. exact (validate_kick_texts k Hv c' Hc'). }
  exists (mkWorld (<[k_id k := set_comments k (comments_pull (comments k) commentId)]> (kicks w))
            (users w) (next_oid w)
            (app (app (log w) [OpFindKick (lower_ascii kickId)]) [OpSaveKick (k_id k)])).
  exists (comments_pull (comments k) commentId).
  split; [|split; [reflexivity | exact Hin]].
  cbn [kick_handler].
  unfold delete_comment, try_catch, bind, Kick_findById, Kick_save, log_op, get_world,
    set_kicks, ret, reply.
  rewrite Hid, (cast_oid_hex24 _ Hid). cbn -[validate_kick set_comments comments_id comments_pull].
  rewrite Hk, Hc, (oid_equals_true _ _ Ho).
  cbn -[validate_kick set_comments comments_pull]. rewrite Hv'. reflexivity.
Qed.

(** PUT /kicks/:kickId/comments/:commentId with a non-blank text by the
    comment's author answers 200 with the comment carrying the trimmed
    text, and stores the kick with only that comment's text replaced;
    provided the stored kick itself passes the schema's validation, since
    [kick.save()] validates the whole kick. *)
Lemma put_comment_author_edits (parse_date : string -> option Z) (user : identity)
    (kickId commentId : string) (k : kick) (c : comment) (s : string) (w : world) :
  is_hex24 kickId = true -> kicks w !! lower_ascii kickId = Some k ->
  comments_id (comments k) commentId = Some c ->
  cast_oid (id_id user) = Some (c_author c) -> validate_kick k = [] -> trim s <> "" ->
  exists w',
    kick_handler parse_date user (PutComment kickId commentId (JStr s)) w
      = (inl (mkResponse 200 (BComment (mkComment (c_id c) (trim s) (c_author c)))), w')
    /\ kicks w' = <[k_id k := set_comments k
                     (map (fun c' => if String.eqb (c_id c') (c_id c)
                                     then mkComment (c_id c') (trim s) (c_author c') else c')
                          (comments k))]> (kicks w).
Proof.
  intros Hid Hk Hc Ho Hv Ht.
  assert (Hv' : validate_kick (set_comments k (replace_comment_text (c_id c) (trim s)
                                                (comments k))) = []).
  { apply validate_kick_set_comments; [exact Hv|].
    intros c' Hc'. unfold replace_comment_text in Hc'.
    apply in_map_iff in Hc' as (c'' & <- & Hc'').
    destruct (String.eqb (c_id c'') (c_id c)); [exact Ht|].
    exact (validate_kick_texts k Hv c'' Hc''). }
  cbn [kick_handler].
  unfold put_comment, with_text, try_catch, bind, Kick_findById, Kick_save, log_op,
    get_world, set_kicks, ret, reply.
  rewrite Hid. cbn [negb truthy]. rewrite (trim_nonempty s Ht).
  rewrite (proj2 (String.eqb_neq _ _) Ht), (cast_oid_hex24 _ Hid).
  cbn -[validate_kick set_comments comments_id replace_comment_text trim].
  rewrite Hk, Hc, (oid_equals_true _ _ Ho).
  cbn -[validate_kick set_comments replace_comment_text trim]. rewrite Hv'.
  eexists. split; reflexivity.
Qed.

(* ------------------------------------------------------------------ *)
(** ** PUT /kicks/:kickId by the kick's author *)



(* ------------------------------------------------------------------ *)
(** ** POST /auth/signup and POST /auth/signin together *)

Lemma find_existsb_false {A} (f : A -> bool) (l : list A) :
  existsb f l = false -> find f l = None.
Proof.
  induction l as [|a l IH]; cbn; [reflexivity|].
  destruct (f a); [discriminate | exact IH].
Qed.

Lemma find_app_fresh {A} (f : A -> bool) (l : list A) (x : A) :
  existsb f l = false -> f x = true -> find f (app l [x]) = Some x.
Proof.
  intros Hl Hx. induction l as [|a l IH]; cbn in *.
  - now rewrite Hx.
  - destruct (f a); [discriminate | exact (IH Hl)].
Qed.

(** POST /auth/signup with a non-empty handle, password, name and email,
    where no account has that handle and none has that email, answers 201
    with a token for the new account and appends exactly one account to the
    store: fresh id, the given handle, name and email, and the hash of the
    password; the kicks are not touched. *)
Lemma signup_creates_account (hashSync : string -> string) (jwt_sign : identity -> string)
    (h p n e : string) (w : world) :
  h <> "" -> p <> "" -> n <> "" -> e <> "" ->
  existsb (fun x => String.eqb (username x) h) (users w) = false ->
  existsb (fun x => String.eqb (email x) e) (users w) = false ->
  exists w',
    signup hashSync jwt_sign (mkAuthBody (JStr h) (JStr p) (JStr n) (JStr e)) w
      = (inl (mkResponse 201 (BToken (jwt_sign (mkIdentity h (oid_of (next_oid w))))
                                     (oid_of (next_oid w)) h n e)), w')
    /\ users w' = app (users w) [mkUser (oid_of (next_oid w)) h n e (hashSync p)]
    /\ kicks w' = kicks w.
Proof.
  intros Hh Hp Hn He Hu Hm.
  apply String.eqb_neq in Hh, Hp, Hn, He.
  unfold signup, try_catch, bind, User_findOne, log_op, get_world, ret, reply,
    bcrypt_hash, User_create, fresh_oid, set_users, token_reply.
  cbn [a_username a_password a_name a_email truthy cast_string].
  rewrite Hh, Hp, Hn, He. cbn -[oid_of].
  rewrite (find_existsb_false _ _ Hu). cbn -[oid_of].
  rewrite Hh, Hn, He. cbn -[oid_of]. rewrite Hu, Hm. cbn -[oid_of].
  eexists. split; [reflexivity | split; reflexivity].
Qed.

(** Signing up and then signing in with the same handle and password
    succeeds whenever bcrypt accepts the password against its own hash:
    POST /auth/signin answers 200 with a token for the account that
    POST /auth/signup has just created. *)
Lemma signup_then_signin (hashSync : string -> string)
    (compareSync : string -> string -> bool) (jwt_sign : identity -> string)
    (h p n e : string) (w : world) :
  h <> "" -> p <> "" -> n <> "" -> e <> "" ->
  existsb (fun x => String.eqb (username x) h) (users w) = false ->
  existsb (fun x => String.eqb (email x) e) (users w) = false ->
  compareSync p (hashSync p) = true ->
  exists w',
    fst (signup hashSync jwt_sign (mkAuthBody (JStr h) (JStr p) (JStr n) (JStr e)) w)
      = inl (mkResponse 201 (BToken (jwt_sign (mkIdentity h (oid_of (next_oid w))))
                                    (oid_of (next_oid w)) h n e))
    /\ snd (signup hashSync jwt_sign (mkAuthBody (JStr h) (JStr p) (JStr n) (JStr e)) w) = w'
    /\ fst (signin compareSync jwt_sign (signin_body (JStr h) (JStr p)) w')
       = inl (mkResponse 200 (BToken (jwt_sign (mkIdentity h (oid_of (next_oid w))))
                                     (oid_of (next_oid w)) h n e)).
Proof.
  intros Hh Hp Hn He Hu Hm Hc.
  destruct (signup_creates_account hashSync jwt_sign h p n e w Hh Hp Hn He Hu Hm)
    as (w' & E & Hus & _).
  exists w'. rewrite E. split; [reflexivity | split; [reflexivity|]].
  assert (Hp' : truthy (JStr p) = true)
    by (cbn; apply String.eqb_neq in Hp; now rewrite Hp).
  rewrite (signin_registered compareSync jwt_sign h
             (mkUser (oid_of (next_oid w)) h n e (hashSync p)) (JStr p) w' Hh Hp').
  - cbn [hashedPassword username u_id name email]. now rewrite Hc.
  - rewrite Hus. apply find_app_fresh; [exact Hu | apply String.eqb_refl].
Qed.

(* ------------------------------------------------------------------ *)
(** ** Presence checks that answer before any store operation *)

(** POST /kicks whose title or category is falsy (missing, null, false, 0
    or the empty string) answers 400 and leaves the whole world as it was:
    no store operation is logged and no identifier is consumed. *)
Lemma post_kick_missing_untouched (parse_date : string -> option Z) (user : identity)
    (b : kick_body) (w : world) :
  truthy (b_title b) = false \/ truthy (b_category b) = false ->
  exists msg, kick_handler parse_date user (PostKick b) w
              = (inl (mkResponse 400 (BError msg)), w).
Proof.
  intros H. cbn [kick_handler]. unfold post_kick, try_catch, reply, ret.
  destruct H as [H | H]; rewrite H; cbn [negb orb];
    [| destruct (truthy (b_title b)); cbn [negb orb]];
    eexists; reflexivity.
Qed.

(** POST /auth/signup with a falsy handle, password, name or email answers
    400 and leaves the whole world as it was: no account is looked up or
    created and no identifier is consumed. *)
Lemma signup_missing_untouched (hashSync : string -> string) (jwt_sign : identity -> string)
    (b : auth_body) (w : world) :
  truthy (a_username b) = false \/ truthy (a_password b) = false \/
  truthy (a_name b) = false \/ truthy (a_email b) = false ->
  exists msg, signup hashSync jwt_sign b w = (inl (mkResponse 400 (BErr msg)), w).
Proof.
  intros H. unfold signup, try_catch, reply, ret.
  assert (E : negb (truthy (a_username b)) || negb (truthy (a_password b))
              || negb (truthy (a_name b)) || negb (truthy (a_email b)) = true)
    by (destruct H as [H | [H | [H | H]]]; rewrite H;
        rewrite ?orb_true_r; reflexivity).
  rewrite E. eexists; reflexivity.
Qed.

(* ------------------------------------------------------------------ *)
(** ** Instances of the properties above on the fixtures *)

Lemma list_kicks_own_newest_first_witness :
  is_hex24 (id_id alice) = true
  /\ exists ks,
    fst (list_kicks alice world0) = inl (mkResponse 200 (BKicks ks))
    /\ kicks (snd (list_kicks alice world0)) = kicks world0
    /\ (forall k, In k ks <->
          (exists id, kicks world0 !! id = Some k) /\ author k = lower_ascii (id_id alice))
    /\ Sorted created_desc ks.
Proof.
  assert (H : is_hex24 (id_id alice) = true) by (vm_compute; reflexivity).
  exact (conj H (list_kicks_own_newest_first alice world0 H)).
Defined.

Lemma get_kick_any_caller_witness :
  is_hex24 (oid_of 0) = true
  /\ kick_handler no_dates bob (GetKick (oid_of 0)) world0
     = (inl (match kicks world0 !! lower_ascii (oid_of 0) with
             | Some k => mkResponse 200 (BKick k)
             | None => mkResponse 404 (BError "Kick not found. It may have been deleted.")
             end), after_find (lower_ascii (oid_of 0)) world0).
Proof.
  assert (H : is_hex24 (oid_of 0) = true) by (vm_compute; reflexivity).
  exact (conj H (get_kick_any_caller no_dates bob (oid_of 0) world0 H)).
Defined.

Lemma delete_kick_owner_removes_witness :
  is_hex24 (oid_of 0) = true /\ kicks world0 !! lower_ascii (oid_of 0) = Some kick0
  /\ cast_oid (id_id alice) = Some (author kick0)
  /\ exists w',
    kick_handler no_dates alice (DeleteKick (oid_of 0)) world0
      = (inl (mkResponse 200 (BMessage "Kick deleted successfully")), w')
    /\ kicks w' = delete (lower_ascii (oid_of 0)) (kicks world0)
    /\ forall user', fst (kick_handler no_dates user' (GetKick (oid_of 0)) w')
                     = inl (mkResponse 404 (BError "Kick not found. It may have been deleted.")).
Proof.
  assert (H1 : is_hex24 (oid_of 0) = true) by (vm_compute; reflexivity).
  assert (H2 : kicks world0 !! lower_ascii (oid_of 0) = Some kick0) by (vm_compute; reflexivity).
  assert (H3 : cast_oid (id_id alice) = Some (author kick0)) by (vm_compute; reflexivity).
  exact (conj H1 (conj H2 (conj H3
    (delete_kick_owner_removes no_dates alice (oid_of 0) kick0 world0 H1 H2 H3)))).
Defined.

Lemma patch_status_owner_sets_witness :
  is_hex24 (oid_of 0) = true /\ kicks world0 !! lower_ascii (oid_of 0) = Some kick0
  /\ cast_oid (id_id alice) = Some (author kick0) /\ validate_kick kick0 = []
  /\ in_enum status_enum "Completed" = true
  /\ exists w',
    kick_handler no_dates alice (PatchStatus (oid_of 0) (JStr "Completed")) world0
      = (inl (mkResponse 200 (BKick (set_status kick0 "Completed"))), w')
    /\ kicks w' = <[k_id kick0 := set_status kick0 "Completed"]> (kicks world0).
Proof.
  assert (H1 : is_hex24 (oid_of 0) = true) by (vm_compute; reflexivity).
  assert (H2 : kicks world0 !! lower_ascii (oid_of 0) = Some kick0) by (vm_compute; reflexivity).
  assert (H3 : cast_oid (id_id alice) = Some (author kick0)) by (vm_compute; reflexivity).
  assert (H4 : validate_kick kick0 = []) by (vm_compute; reflexivity).
  assert (H5 : in_enum status_enum "Completed" = true) by (vm_compute; reflexivity).
  exact (conj H1 (conj H2 (conj H3 (conj H4 (conj H5
    (patch_status_owner_sets no_dates alice (oid_of 0) kick0 "Completed" world0
       H1 H2 H3 H4 H5)))))).
Defined.

Lemma post_comment_appends_witness :
  is_hex24 (oid_of 0) = true /\ kicks world0 !! lower_ascii (oid_of 0) = Some kick0
  /\ validate_kick kick0 = [] /\ is_hex24 (id_id bob) = true
  /\ trim " See you there " <> ""
  /\ exists w',
    kick_handler no_dates bob (PostComment (oid_of 0) (JStr " See you there ")) world0
      = (inl (mkResponse 201 (BNewComment (trim " See you there ") (id_id bob))), w')
    /\ kicks w' = <[k_id kick0 := set_comments kick0
                     (app (comments kick0)
                        [mkComment (oid_of (next_oid world0)) (trim " See you there ")
                           (lower_ascii (id_id bob))])]>
                  (kicks world0).
Proof.
  assert (H1 : is_hex24 (oid_of 0) = true) by (vm_compute; reflexivity).
  assert (H2 : kicks world0 !! lower_ascii (oid_of 0) = Some kick0) by (vm_compute; reflexivity).
  assert (H3 : validate_kick kick0 = []) by (vm_compute; reflexivity).
  assert (H4 : is_hex24 (id_id bob) = true) by (vm_compute; reflexivity).
  assert (H5 : trim " See you there " <> "") by (intro E; vm_compute in E; discriminate E).
  exact (conj H1 (conj H2 (conj H3 (conj H4 (conj H5
    (post_comment_appends no_dates bob (oid_of 0) kick0 " See you there " world0
       H1 H2 H3 H4 H5)))))).
Defined.

Lemma delete_comment_author_removes_witness :
  is_hex24 (oid_of 0) = true /\ kicks world0 !! lower_ascii (oid_of 0) = Some kick0
  /\ comments_id (comments kick0) (oid_of 1) = Some (mkComment (oid_of 1) "Count me in" bob_id)
  /\ cast_oid (id_id bob) = Some bob_id /\ validate_kick kick0 = []
  /\ exists w' cs,
    kick_handler no_dates bob (DeleteComment (oid_of 0) (oid_of 1)) world0
      = (inl (mkResponse 200 (BMessage "Comment deleted successfully")), w')
    /\ kicks w' = <[k_id kick0 := set_comments kick0 cs]> (kicks world0)
    /\ (forall c', In c' cs <-> In c' (comments kick0) /\ c_id c' <> oid_of 1).
Proof.
  assert (H1 : is_hex24 (oid_of 0) = true) by (vm_compute; reflexivity).
  assert (H2 : kicks world0 !! lower_ascii (oid_of 0) = Some kick0) by (vm_compute; reflexivity).
  assert (H3 : comments_id (comments kick0) (oid_of 1)
               = Some (mkComment (oid_of 1) "Count me in" bob_id)) by (vm_compute; reflexivity).
  assert (H4 : cast_oid (id_id bob) = Some bob_id) by (vm_compute; reflexivity).
  assert (H5 : validate_kick kick0 = []) by (vm_compute; reflexivity).
  exact (conj H1 (conj H2 (conj H3 (conj H4 (conj H5
    (delete_comment_author_removes no_dates bob (oid_of 0) (oid_of 1) kick0
       (mkComment (oid_of 1) "Count me in" bob_id) world0 H1 H2 H3 H4 H5)))))).
Defined.

Lemma put_comment_author_edits_witness :
  is_hex24 (oid_of 0) = true /\ kicks world0 !! lower_ascii (oid_of 0) = Some kick0
  /\ comments_id (comments kick0) (oid_of 1) = Some (mkComment (oid_of 1) "Count me in" bob_id)
  /\ cast_oid (id_id bob) = Some bob_id /\ validate_kick kick0 = []
  /\ trim "Count me out" <> ""
  /\ exists w',
    kick_handler no_dates bob (PutComment (oid_of 0) (oid_of 1) (JStr "Count me out")) world0
      = (inl (mkResponse 200 (BComment (mkComment (oid_of 1) (trim "Count me out") bob_id))), w')
    /\ kicks w' = <[k_id kick0 := set_comments kick0
                     (map (fun c' => if String.eqb (c_id c') (oid_of 1)
                                     then mkComment (c_id c') (trim "Count me out") (c_author c')
                                     else c')
                          (comments kick0))]> (kicks world0).
Proof.
  assert (H1 : is_hex24 (oid_of 0) = true) by (vm_compute; reflexivity).
  assert (H2 : kicks world0 !! lower_ascii (oid_of 0) = Some kick0) by (vm_compute; reflexivity).
  assert (H3 : comments_id (comments kick0) (oid_of 1)
               = Some (mkComment (oid_of 1) "Count me in" bob_id)) by (vm_compute; reflexivity).
  assert (H4 : cast_oid (id_id bob) = Some bob_id) by (vm_compute; reflexivity).
  assert (H5 : validate_kick kick0 = []) by (vm_compute; reflexivity).
  assert (H6 : trim "Count me out" <> "") by (intro E; vm_compute in E; discriminate E).
  exact (conj H1 (conj H2 (conj H3 (conj H4 (conj H5 (conj H6
    (put_comment_author_edits no_dates bob (oid_of 0) (oid_of 1) kick0
       (mkComment (oid_of 1) "Count me in" bob_id) "Count me out" world0
       H1 H2 H3 H4 H5 H6))))))).
Defined.


Lemma signup_creates_account_witness :
  "carol" <> "" /\ "pw" <> "" /\ "Carol" <> "" /\ "carol@example.com" <> ""
  /\ existsb (fun x => String.eqb (username x) "carol") (users accounts0) = false
  /\ existsb (fun x => String.eqb (email x) "carol@example.com") (users accounts0) = false
  /\ exists w',
    signup hash0 sign0
      (mkAuthBody (JStr "carol") (JStr "pw") (JStr "Carol") (JStr "carol@example.com")) accounts0
      = (inl (mkResponse 201 (BToken (sign0 (mkIdentity "carol" (oid_of 501)))
                                     (oid_of 501) "carol" "Carol" "carol@example.com")), w')
    /\ users w' = app (users accounts0)
                    [mkUser (oid_of 501) "carol" "Carol" "carol@example.com" (hash0 "pw")]
    /\ kicks w' = kicks accounts0.
Proof.
  assert (H1 : "carol" <> "") by discriminate.
  assert (H2 : "pw" <> "") by discriminate.
  assert (H3 : "Carol" <> "") by discriminate.
  assert (H4 : "carol@example.com" <> "") by discriminate.
  assert (H5 : existsb (fun x => String.eqb (username x) "carol") (users accounts0) = false)
    by (vm_compute; reflexivity).
  assert (H6 : existsb (fun x => String.eqb (email x) "carol@example.com") (users accounts0)
               = false) by (vm_compute; reflexivity).
  exact (conj H1 (conj H2 (conj H3 (conj H4 (conj H5 (conj H6
    (signup_creates_account hash0 sign0 "carol" "pw" "Carol" "carol@example.com" accounts0
       H1 H2 H3 H4 H5 H6))))))).
Defined.

Lemma signup_then_signin_witness :
  compare0 "pw" (hash0 "pw") = true
  /\ exists w',
    snd (signup hash0 sign0
           (mkAuthBody (JStr "carol") (JStr "pw") (JStr "Carol") (JStr "carol@example.com"))
           accounts0) = w'
    /\ fst (signin compare0 sign0 (signin_body (JStr "carol") (JStr "pw")) w')
       = inl (mkResponse 200 (BToken (sign0 (mkIdentity "carol" (oid_of 501)))
                                     (oid_of 501) "carol" "Carol" "carol@example.com")).
Proof.
  assert (H1 : "carol" <> "") by discriminate.
  assert (H2 : "pw" <> "") by discriminate.
  assert (H3 : "Carol" <> "") by discriminate.
  assert (H4 : "carol@example.com" <> "") by discriminate.
  assert (H5 : existsb (fun x => String.eqb (username x) "carol") (users accounts0) = false)
    by (vm_compute; reflexivity).
  assert (H6 : existsb (fun x => String.eqb (email x) "carol@example.com") (users accounts0)
               = false) by (vm_compute; reflexivity).
  assert (H7 : compare0 "pw" (hash0 "pw") = true) by (vm_compute; reflexivity).
  split; [exact H7|].
  destruct (signup_then_signin hash0 compare0 sign0 "carol" "pw" "Carol" "carol@example.com"
              accounts0 H1 H2 H3 H4 H5 H6 H7) as (w' & _ & Ew & Hs).
  exists w'. split; [exact Ew | exact Hs].
Defined.

Lemma post_kick_missing_untouched_witness :
  (truthy (b_title (mkKickBody (JStr "Climb") JUndefined JUndefined JUndefined
                     JUndefined JUndefined JUndefined)) = false
   \/ truthy (b_category (mkKickBody (JStr "Climb") JUndefined JUndefined JUndefined
                            JUndefined JUndefined JUndefined)) = false)
  /\ exists msg, kick_handler no_dates alice
                   (PostKick (mkKickBody (JStr "Climb") JUndefined JUndefined JUndefined
                                JUndefined JUndefined JUndefined)) world0
                 = (inl (mkResponse 400 (BError msg)), world0).
Proof.
  assert (H : truthy (b_title (mkKickBody (JStr "Climb") JUndefined JUndefined JUndefined
                                 JUndefined JUndefined JUndefined)) = false
              \/ truthy (b_category (mkKickBody (JStr "Climb") JUndefined JUndefined
                                      JUndefined JUndefined JUndefined JUndefined)) = false)
    by (right; reflexivity).
  exact (conj H (post_kick_missing_untouched no_dates alice _ world0 H)).
Defined.

Lemma signup_missing_untouched_witness :
  (truthy (a_username (mkAuthBody (JStr "carol") (JStr "") (JStr "Carol") JNull)) = false
   \/ truthy (a_password (mkAuthBody (JStr "carol") (JStr "") (JStr "Carol") JNull)) = false
   \/ truthy (a_name (mkAuthBody (JStr "carol") (JStr "") (JStr "Carol") JNull)) = false
   \/ truthy (a_email (mkAuthBody (JStr "carol") (JStr "") (JStr "Carol") JNull)) = false)
  /\ exists msg, signup hash0 sign0 (mkAuthBody (JStr "carol") (JStr "") (JStr "Carol") JNull)
                   accounts0 = (inl (mkResponse 400 (BErr msg)), accounts0).
Proof.
  assert (H : truthy (a_username (mkAuthBody (JStr "carol") (JStr "") (JStr "Carol") JNull))
                = false
              \/ truthy (a_password (mkAuthBody (JStr "carol") (JStr "") (JStr "Carol") JNull))
                = false
              \/ truthy (a_name (mkAuthBody (JStr "carol") (JStr "") (JStr "Carol") JNull))
                = false
              \/ truthy (a_email (mkAuthBody (JStr "carol") (JStr "") (JStr "Carol") JNull))
                = false)
    by (right; left; reflexivity).
  exact (conj H (signup_missing_untouched hash0 sign0 _ accounts0 H)).
Defined.
